(** * The MCP protocol bridge of [mcp_server_http.py]

    A shallow embedding of the JSON-RPC dispatcher [handle_mcp_request], of
    the gateway [call_tool] with the [BusinessServerMCP] client it drives, of
    the tool catalog [TOOLS] and of the per-peer session store, with
    [handle_call_tool] of the stdio server [mcp_server.py] and [adder] of
    [business_server.py], followed by the properties of the bridge.

    Python values that travel through the bridge are JSON values; the two
    process-wide registries [connected_clients] and [client_sessions] are
    threaded explicitly as a [server] state; the downstream business API and
    the clock are inputs of every handled request; every downstream HTTP
    call that is issued is recorded in a trace. *)

From Stdlib Require Import ZArith String Ascii DecimalString.
From Stdlib Require Import Floats.SpecFloat.
From stdpp Require Import base option list gmap strings.

Open Scope Z_scope.

(** ** JSON values, as [json.loads] hands them to Python *)

#[local] Unset Elimination Schemes.

Inductive json : Type :=
| JNull
| JBool (b : bool)
| JInt (n : Z)
| JFloat (x : spec_float)
| JStr (s : string)
| JList (l : list json)
| JDict (d : list (string * json)).

#[local] Set Elimination Schemes.

(** A dict keeps its items in insertion order; a key is bound once. *)
Abbreviation dict := (list (string * json)).

Fixpoint dict_get (d : dict) (k : string) : option json :=
  match d with
  | [] => None
  | (k', v) :: d' => if String.eqb k' k then Some v else dict_get d' k
  end.

(** [v == "literal"] for a JSON value [v]. *)
Definition is_str (v : json) (s : string) : bool :=
  match v with
  | JStr t => String.eqb t s
  | _ => false
  end.

Definition is_dict (v : json) : bool :=
  match v with
  | JDict _ => true
  | _ => false
  end.

Definition type_name (v : json) : string :=
  match v with
  | JNull => "NoneType"
  | JBool _ => "bool"
  | JInt _ => "int"
  | JFloat _ => "float"
  | JStr _ => "str"
  | JList _ => "list"
  | JDict _ => "dict"
  end.

(** ** The Python runtime

    What the interpreter and the installed packages decide, and the
    repository does not: the [repr] of floats, containers and strings that
    need escaping, [json.dumps(_, indent=2)], the message of the [TypeError]
    raised when a value that is not a dict is subscripted with a string, and
    [str] of the web framework's [HTTPException]. *)

Class PyRuntime : Type := {
  repr_other : json -> string;
  json_dumps_indent2 : json -> string;
  subscript_error : json -> string;
  http_exception_str : Z -> string -> string
}.

Definition decimal (n : Z) : string := NilZero.string_of_int (Z.to_int n).

(** Printable ASCII without quote and backslash: [repr] adds the quotes and
    nothing else. *)
Definition plain_char (c : ascii) : bool :=
  let n := N_of_ascii c in
  (32 <=? n)%N && (n <=? 126)%N && negb (n =? 39)%N && negb (n =? 92)%N.

Fixpoint plain (s : string) : bool :=
  match s with
  | EmptyString => true
  | String c s' => plain_char c && plain s'
  end.

Inductive exn : Type :=
| KeyError (key : json)
| TypeError (msg : string)
| AttributeError (msg : string)
| HTTPException (status_code : Z) (detail : string)
| HTTPError (cause : string).

Inductive result (A : Type) : Type :=
| Ok (a : A)
| Raise (e : exn).
Arguments Ok {A} a.
Arguments Raise {A} e.

Definition res_bind {A B} (r : result A) (f : A -> result B) : result B :=
  match r with
  | Ok a => f a
  | Raise e => Raise e
  end.

Notation "'try' x <- r ;; k" := (res_bind r (fun x => k))
  (at level 10, x name, r at level 99, k at level 200).

(** ** The tool catalog *)

Definition prop (type description : string) : json :=
  JDict [("type", JStr type); ("description", JStr description)].

Definition tool (name description : string) (properties : dict)
  (required : list string) : json :=
  JDict [("name", JStr name);
         ("description", JStr description);
         ("inputSchema",
          JDict [("type", JStr "object");
                 ("properties", JDict properties);
                 ("required", JList (JStr <$> required))])].

Definition TOOLS : list json :=
  [ tool "register_agent" "Register a new agent with the business server"
      [("name", prop "string" "Name of the agent to register");
       ("version", prop "string" "Version of the agent")]
      ["name"; "version"];
    tool "report_status" "Report agent status to the business server"
      [("agent_id", prop "string" "ID of the agent reporting status");
       ("status", prop "string" "Current status of the agent");
       ("cpu_usage", prop "number" "CPU usage percentage (optional)");
       ("memory_usage", prop "number" "Memory usage percentage (optional)")]
      ["agent_id"; "status"];
    tool "get_tasks" "Get tasks assigned to a specific agent"
      [("agent_id", prop "string" "ID of the agent to get tasks for")]
      ["agent_id"];
    tool "add_number" "Add 1 to a given number using the business server"
      [("number", prop "integer" "The number to add 1 to")]
      ["number"];
    tool "get_joke" "Get a random joke from the business server"
      []
      [] ].

(** [t["name"]] and [t["inputSchema"]["required"]] of a catalog entry. *)
Definition entry_name (t : json) : json :=
  match t with
  | JDict d => default JNull (dict_get d "name")
  | _ => JNull
  end.

Definition entry_required (t : json) : list json :=
  match t with
  | JDict d =>
      match dict_get d "inputSchema" with
      | Some (JDict schema) =>
          match dict_get schema "required" with
          | Some (JList l) => l
          | _ => []
          end
      | _ => []
      end
  | _ => []
  end.

(** The catalog entry called [name], if there is one. *)
Definition registered (name : json) : option json :=
  List.find (fun t => match name with
                      | JStr s => is_str (entry_name t) s
                      | _ => false
                      end) TOOLS.

Section Bridge.
Context {rt : PyRuntime}.

Definition py_repr (v : json) : string :=
  match v with
  | JNull => "None"
  | JBool true => "True"
  | JBool false => "False"
  | JInt n => decimal n
  | JStr s => if plain s then "'" +:+ s +:+ "'" else repr_other v
  | _ => repr_other v
  end.

(** [str(v)], which is also what an f-string field [{v}] prints. *)
Definition py_str (v : json) : string :=
  match v with
  | JStr s => s
  | _ => py_repr v
  end.

(** [str(e)]. [HTTPError] stands for whatever the HTTP client raises
    ([httpx.RequestError], [httpx.HTTPStatusError], a body that is not
    JSON), carried by its message. *)
Definition str_exn (e : exn) : string :=
  match e with
  | KeyError key => py_repr key
  | TypeError msg => msg
  | AttributeError msg => msg
  | HTTPException status_code detail => http_exception_str status_code detail
  | HTTPError cause => cause
  end.

(** [v.get(k, default)] *)
Definition py_get (v : json) (k : string) (default : json) : result json :=
  match v with
  | JDict d =>
      match dict_get d k with
      | Some x => Ok x
      | None => Ok default
      end
  | _ => Raise (AttributeError
                  ("'" +:+ type_name v +:+ "' object has no attribute 'get'"))
  end.

(** [v[k]] *)
Definition py_getitem (v : json) (k : string) : result json :=
  match v with
  | JDict d =>
      match dict_get d k with
      | Some x => Ok x
      | None => Raise (KeyError (JStr k))
      end
  | _ => Raise (TypeError (subscript_error v))
  end.

(** ** The downstream business API and the HTTP client *)

Inductive http_verb : Type := GET | POST.

(** One request of [httpx.AsyncClient]: [payload] is the [json=] body of a
    POST and the [params=] mapping of a GET ([JNull] when there is none). *)
Record http_call : Type := {
  verb : http_verb;
  url : string;
  payload : json
}.

(** What comes back once [raise_for_status()] and [response.json()] have
    run: the decoded body, or the exception they raised. *)
Inductive reply : Type :=
| Replied (body : json)
| Failed (cause : string).

Definition downstream : Type := http_call -> reply.

(** A gateway computation: its outcome and the HTTP calls it issued. *)
Definition gw (A : Type) : Type := result A * list http_call.

Definition gw_ret {A} (a : A) : gw A := (Ok a, []).

Definition gw_lift {A} (r : result A) : gw A := (r, []).

Definition gw_bind {A B} (m : gw A) (f : A -> gw B) : gw B :=
  match m with
  | (Ok a, calls) => let '(r, calls') := f a in (r, calls ++ calls')
  | (Raise e, calls) => (Raise e, calls)
  end.

Notation "'do' x <- m ;; k" := (gw_bind m (fun x => k))
  (at level 10, x name, m at level 99, k at level 200).

Variable api : downstream.

Definition BUSINESS_SERVER_URL : string := "http://localhost:8000".

(** [urljoin(base_url, path)] for the base URL above, which has no path of
    its own, and an absolute [path]. *)
Definition urljoin (base_url path : string) : string := base_url +:+ path.

Definition request (c : http_call) : gw json :=
  (match api c with
   | Replied body => Ok body
   | Failed cause => Raise (HTTPError cause)
   end, [c]).

Definition register_agent (name version : json) : gw json :=
  request {| verb := POST;
             url := urljoin BUSINESS_SERVER_URL "/register";
             payload := JDict [("name", name); ("version", version)] |}.

Definition report_status (agent_id status cpu_usage memory_usage : json)
  : gw json :=
  request {| verb := POST;
             url := urljoin BUSINESS_SERVER_URL "/report_status";
             payload := JDict [("agent_id", agent_id); ("status", status);
                               ("cpu_usage", cpu_usage);
                               ("memory_usage", memory_usage)] |}.

Definition get_tasks (agent_id : json) : gw json :=
  request {| verb := GET;
             url := urljoin BUSINESS_SERVER_URL "/tasks";
             payload := JDict [("agent_id", agent_id)] |}.

Definition add_number (number : json) : gw json :=
  request {| verb := POST;
             url := urljoin BUSINESS_SERVER_URL "/adder";
             payload := JDict [("number", number)] |}.

Definition get_joke : gw json :=
  request {| verb := GET;
             url := urljoin BUSINESS_SERVER_URL "/joke";
             payload := JNull |}.

(** ** The gateway *)

Definition nl : string := String (ascii_of_N 10) EmptyString.

(** The body of the [try] of [call_tool]. *)
Definition call_tool_try (name arguments : json) : gw string :=
  if is_str name "register_agent" then
    do a_name <- gw_lift (py_getitem arguments "name") ;;
    do a_version <- gw_lift (py_getitem arguments "version") ;;
    do result <- register_agent a_name a_version ;;
    do agent_id <- gw_lift (py_get result "agent_id" JNull) ;;
    gw_ret ("Agent registered successfully. Agent ID: " +:+ py_str agent_id)
  else if is_str name "report_status" then
    do a_agent_id <- gw_lift (py_getitem arguments "agent_id") ;;
    do a_status <- gw_lift (py_getitem arguments "status") ;;
    do a_cpu_usage <- gw_lift (py_get arguments "cpu_usage" JNull) ;;
    do a_memory_usage <- gw_lift (py_get arguments "memory_usage" JNull) ;;
    do result <- report_status a_agent_id a_status a_cpu_usage a_memory_usage ;;
    do message <- gw_lift (py_get result "message" JNull) ;;
    gw_ret ("Status reported successfully: " +:+ py_str message)
  else if is_str name "get_tasks" then
    do a_agent_id <- gw_lift (py_getitem arguments "agent_id") ;;
    do result <- get_tasks a_agent_id ;;
    do tasks <- gw_lift (py_get result "tasks" (JDict [])) ;;
    let tasks_info := json_dumps_indent2 tasks in
    do a_agent_id' <- gw_lift (py_getitem arguments "agent_id") ;;
    gw_ret ("Tasks for agent " +:+ py_str a_agent_id' +:+ ":" +:+ nl
            +:+ tasks_info)
  else if is_str name "add_number" then
    do a_number <- gw_lift (py_getitem arguments "number") ;;
    do result <- add_number a_number ;;
    do a_number' <- gw_lift (py_getitem arguments "number") ;;
    do res <- gw_lift (py_get result "result" JNull) ;;
    gw_ret ("Result: " +:+ py_str a_number' +:+ " + 1 = " +:+ py_str res)
  else if is_str name "get_joke" then
    do result <- get_joke ;;
    do setup <- gw_lift (py_get result "setup" (JStr "")) ;;
    do punchline <- gw_lift (py_get result "punchline" (JStr "")) ;;
    gw_ret ("Here's a joke for you:" +:+ nl +:+ nl +:+ "Setup: "
            +:+ py_str setup +:+ nl +:+ "Punchline: " +:+ py_str punchline)
  else
    gw_ret ("Unknown tool: " +:+ py_str name).

(** [call_tool]: the [except Exception] turns every exception of the body
    into a text. Returned with the text: the downstream calls issued. *)
Definition call_tool (name arguments : json) : string * list http_call :=
  match call_tool_try name arguments with
  | (Ok response, calls) => (response, calls)
  | (Raise e, calls) =>
      ("Error executing " +:+ py_str name +:+ ": " +:+ str_exn e, calls)
  end.

(** *** The stdio server of [mcp_server.py]

    It drives a [BusinessServerMCP] of its own, the same class line for
    line, and answers with a list of [TextContent]. *)

Record TextContent : Type := {
  type : string;
  text : string
}.

Definition handle_call_tool_try (name arguments : json)
  : gw (list TextContent) :=
  if is_str name "register_agent" then
    do a_name <- gw_lift (py_getitem arguments "name") ;;
    do a_version <- gw_lift (py_getitem arguments "version") ;;
    do result <- register_agent a_name a_version ;;
    do agent_id <- gw_lift (py_get result "agent_id" JNull) ;;
    gw_ret [{| type := "text";
               text := "Agent registered successfully. Agent ID: "
                       +:+ py_str agent_id |}]
  else if is_str name "report_status" then
    do a_agent_id <- gw_lift (py_getitem arguments "agent_id") ;;
    do a_status <- gw_lift (py_getitem arguments "status") ;;
    do a_cpu_usage <- gw_lift (py_get arguments "cpu_usage" JNull) ;;
    do a_memory_usage <- gw_lift (py_get arguments "memory_usage" JNull) ;;
    do result <- report_status a_agent_id a_status a_cpu_usage a_memory_usage ;;
    do message <- gw_lift (py_get result "message" JNull) ;;
    gw_ret [{| type := "text";
               text := "Status reported successfully: " +:+ py_str message |}]
  else if is_str name "get_tasks" then
    do a_agent_id <- gw_lift (py_getitem arguments "agent_id") ;;
    do result <- get_tasks a_agent_id ;;
    do tasks <- gw_lift (py_get result "tasks" (JDict [])) ;;
    let tasks_info := json_dumps_indent2 tasks in
    do a_agent_id' <- gw_lift (py_getitem arguments "agent_id") ;;
    gw_ret [{| type := "text";
               text := "Tasks for agent " +:+ py_str a_agent_id' +:+ ":"
                       +:+ nl +:+ tasks_info |}]
  else if is_str name "add_number" then
    do a_number <- gw_lift (py_getitem arguments "number") ;;
    do result <- add_number a_number ;;
    do a_number' <- gw_lift (py_getitem arguments "number") ;;
    do res <- gw_lift (py_get result "result" JNull) ;;
    gw_ret [{| type := "text";
               text := "Result: " +:+ py_str a_number' +:+ " + 1 = "
                       +:+ py_str res |}]
  else if is_str name "get_joke" then
    do result <- get_joke ;;
    do setup <- gw_lift (py_get result "setup" (JStr "")) ;;
    do punchline <- gw_lift (py_get result "punchline" (JStr "")) ;;
    gw_ret [{| type := "text";
               text := "Here's a joke for you:" +:+ nl +:+ nl +:+ "Setup: "
                       +:+ py_str setup +:+ nl +:+ "Punchline: "
                       +:+ py_str punchline |}]
  else
    gw_ret [{| type := "text"; text := "Unknown tool: " +:+ py_str name |}].

Definition handle_call_tool (name arguments : json)
  : list TextContent * list http_call :=
  match handle_call_tool_try name arguments with
  | (Ok content, calls) => (content, calls)
  | (Raise e, calls) =>
      ([{| type := "text";
           text := "Error executing " +:+ py_str name +:+ ": "
                   +:+ str_exn e |}], calls)
  end.

End Bridge.

(** ** The session store *)

(** One entry of a session's ["tools_called"] list. *)
Record invocation : Type := {
  tool_name : json;
  arguments : json;
  timestamp : string
}.

(** One value of [client_sessions]. *)
Record session : Type := {
  connected_at : string;
  requests_count : Z;
  tools_called : list invocation
}.

(** The two module-level registries. *)
Record server : Type := {
  connected_clients : gset string;
  client_sessions : gmap string session
}.

Definition startup : server :=
  {| connected_clients := ∅; client_sessions := ∅ |}.

(** [session["requests_count"] += 1] *)
Definition count_request (s : session) : session :=
  {| connected_at := connected_at s;
     requests_count := requests_count s + 1;
     tools_called := tools_called s |}.

(** [session["tools_called"].append(record)] *)
Definition record_call (record : invocation) (s : session) : session :=
  {| connected_at := connected_at s;
     requests_count := requests_count s;
     tools_called := tools_called s ++ [record] |}.

(** What a counted [tools/call] makes of a session. *)
Definition called (now : string) (name args : json) (s : session) : session :=
  record_call {| tool_name := name; arguments := args; timestamp := now |}
              (count_request s).

Definition with_sessions (st : server) (m : gmap string session) : server :=
  {| connected_clients := connected_clients st; client_sessions := m |}.

(** ** The dispatcher *)

(** What one call of [handle_mcp_request] leaves behind: the returned
    envelope, the registries, the downstream calls issued meanwhile. *)
Record handled : Type := {
  response : json;
  after : server;
  calls : list http_call
}.

Definition SERVER_INFO : json :=
  JDict [("protocolVersion", JStr "2024-11-05");
         ("capabilities",
          JDict [("tools", JDict [("listChanged", JBool false)])]);
         ("serverInfo",
          JDict [("name", JStr "business-server-mcp");
                 ("version", JStr "1.0.0")])].

(** [request_data.get("method")], [request_data.get("params", {})] and
    [request_data.get("id")]: a missing member and a [null] one both read
    as [None], except for ["params"], whose default is the empty dict. *)
Definition method_of (request_data : dict) : json :=
  default JNull (dict_get request_data "method").

Definition params_of (request_data : dict) : json :=
  default (JDict []) (dict_get request_data "params").

Definition id_of (request_data : dict) : json :=
  default JNull (dict_get request_data "id").

Section Dispatcher.
Context {rt : PyRuntime}.
Variable api : downstream.
(** The reading of [datetime.now().isoformat()] while the request is
    handled. *)
Variable now : string.
(** [f"{request.client.host}:{request.client.port}"] *)
Variable client_id : string.

(** The body of the [try] of [handle_mcp_request]: its outcome, the
    registries as the body leaves them, the downstream calls. *)
Definition handle_try (request_data : dict) (st : server)
  : result json * server * list http_call :=
  let method := method_of request_data in
  let params := params_of request_data in
  let request_id := id_of request_data in
  if is_str method "initialize" then
    let st1 :=
      if decide (client_id ∈ connected_clients st) then st
      else {| connected_clients := {[client_id]} ∪ connected_clients st;
              client_sessions :=
                <[client_id := {| connected_at := now;
                                  requests_count := 0;
                                  tools_called := [] |}]>
                  (client_sessions st) |} in
    match client_sessions st1 !! client_id with
    | None => (Raise (KeyError (JStr client_id)), st1, [])
    | Some s =>
        let st2 :=
          with_sessions st1 (<[client_id := count_request s]>
                               (client_sessions st1)) in
        (try client_info <- py_get params "clientInfo" (JDict []) ;;
         try client_name <- py_get client_info "name" (JStr "unknown") ;;
         try client_version <- py_get client_info "version" (JStr "unknown") ;;
         Ok (JDict [("jsonrpc", JStr "2.0");
                    ("id", request_id);
                    ("result", SERVER_INFO)]),
         st2, [])
    end
  else if is_str method "notifications/initialized" then
    (Ok (JDict [("jsonrpc", JStr "2.0")]), st, [])
  else if is_str method "tools/list" then
    let st1 :=
      match client_sessions st !! client_id with
      | Some s =>
          with_sessions st (<[client_id := count_request s]>
                              (client_sessions st))
      | None => st
      end in
    (Ok (JDict [("jsonrpc", JStr "2.0");
                ("id", request_id);
                ("result", JDict [("tools", JList TOOLS)])]),
     st1, [])
  else if is_str method "tools/call" then
    match py_get params "name" JNull with
    | Raise e => (Raise e, st, [])
    | Ok tool_name =>
        match py_get params "arguments" (JDict []) with
        | Raise e => (Raise e, st, [])
        | Ok arguments =>
            let st1 :=
              match client_sessions st !! client_id with
              | Some s =>
                  with_sessions st
                    (<[client_id :=
                         record_call {| tool_name := tool_name;
                                        arguments := arguments;
                                        timestamp := now |}
                                     (count_request s)]>
                       (client_sessions st))
              | None => st
              end in
            let '(result, issued) := call_tool api tool_name arguments in
            (Ok (JDict [("jsonrpc", JStr "2.0");
                        ("id", request_id);
                        ("result",
                         JDict [("content",
                                 JList [JDict [("type", JStr "text");
                                               ("text", JStr result)]])])]),
             st1, issued)
        end
    end
  else
    (Raise (HTTPException 400 ("Unknown method: " +:+ py_str method)), st, []).

(** [handle_mcp_request]: the [except Exception] answers every exception of
    the body with the error envelope. *)
Definition handle_mcp_request (request_data : dict) (st : server) : handled :=
  match handle_try request_data st with
  | (Ok envelope, st', issued) =>
      {| response := envelope; after := st'; calls := issued |}
  | (Raise e, st', issued) =>
      {| response :=
           JDict [("jsonrpc", JStr "2.0");
                  ("id", id_of request_data);
                  ("error",
                   JDict [("code", JInt (-32603));
                          ("message", JStr "Internal error");
                          ("data", JStr (str_exn e))])];
         after := st';
         calls := issued |}
  end.

End Dispatcher.

(** ** Runs of the server *)

(** One handled request: who sent what, and what the clock and the
    business API were like at that moment. *)
Record event : Type := {
  ev_api : downstream;
  ev_now : string;
  ev_client : string;
  ev_request : dict
}.

Section Runs.
Context {rt : PyRuntime}.

Definition handle (ev : event) (st : server) : handled :=
  handle_mcp_request (ev_api ev) (ev_now ev) (ev_client ev) (ev_request ev) st.

Definition step (st : server) (ev : event) : server := after (handle ev st).

Definition run (st : server) (evs : list event) : server :=
  fold_left step evs st.

End Runs.

(** ** Reading envelopes and sessions *)

(** [v[k]] for an envelope that is known to be a dict, [None] otherwise. *)
Definition member (k : string) (v : json) : option json :=
  match v with
  | JDict d => dict_get d k
  | _ => None
  end.

(** The success envelope around one text block. *)
Definition success_text (request_id : json) (text : string) : json :=
  JDict [("jsonrpc", JStr "2.0");
         ("id", request_id);
         ("result",
          JDict [("content",
                  JList [JDict [("type", JStr "text");
                                ("text", JStr text)]])])].

(** The success envelope around the catalog. *)
Definition success_tools (request_id : json) : json :=
  JDict [("jsonrpc", JStr "2.0");
         ("id", request_id);
         ("result", JDict [("tools", JList TOOLS)])].

(** The error envelope of the dispatcher. *)
Definition internal_error (request_id : json) (data : string) : json :=
  JDict [("jsonrpc", JStr "2.0");
         ("id", request_id);
         ("error",
          JDict [("code", JInt (-32603));
                 ("message", JStr "Internal error");
                 ("data", JStr data)])].

(** The two registries agree on who is connected. *)
Definition consistent (st : server) : Prop :=
  forall peer, peer ∈ connected_clients st <->
               is_Some (client_sessions st !! peer).

(** [needle in hay] *)
Fixpoint contains (needle hay : string) : bool :=
  String.prefix needle hay ||
  match hay with
  | EmptyString => false
  | String _ hay' => contains needle hay'
  end.

Definition REGISTERED : list string :=
  ["register_agent"; "report_status"; "get_tasks"; "add_number"; "get_joke"].

Definition METHODS : list string :=
  ["initialize"; "notifications/initialized"; "tools/list"; "tools/call"].

(** ** The business server and stand-ins for it *)

(** [adder] of [business_server.py], on a validated [NumberInput]. *)
Definition adder (number : Z) : json := JDict [("result", JInt (number + 1))].

(** A business API that answers every call with [body]. *)
Definition stub_api (body : json) : downstream := fun _ => Replied body.

(** A business API that cannot be reached. *)
Definition unreachable_api : downstream :=
  fun _ => Failed "All connection attempts failed".

(** A runtime to evaluate examples in: [str] of an [HTTPException] as the
    framework prints it, the messages of CPython 3.11 for subscripting,
    and an ellipsis for the container printing the examples do not use. *)
Definition example_runtime : PyRuntime :=
  {| repr_other := fun _ => "...";
     json_dumps_indent2 := fun _ => "...";
     subscript_error := fun v =>
       match v with
       | JStr _ => "string indices must be integers, not 'str'"
       | JList _ => "list indices must be integers or slices, not str"
       | _ => "'" +:+ type_name v +:+ "' object is not subscriptable"
       end;
     http_exception_str := fun status_code detail =>
       decimal status_code +:+ ": " +:+ detail |}.

(** ** Requests to evaluate the bridge on

    The first five are the requests of [test_mcp_http.py] and of
    [mcp_client.py]; the others vary them. *)

Definition init_request : dict :=
  [("jsonrpc", JStr "2.0");
   ("id", JInt 1);
   ("method", JStr "initialize");
   ("params",
    JDict [("protocolVersion", JStr "2024-11-05");
           ("capabilities", JDict [("tools", JDict [])]);
           ("clientInfo", JDict [("name", JStr "test-client");
                                 ("version", JStr "1.0.0")])])].

Definition initialized_notification : dict :=
  [("jsonrpc", JStr "2.0"); ("method", JStr "notifications/initialized")].

Definition tools_request : dict :=
  [("jsonrpc", JStr "2.0"); ("id", JInt 2); ("method", JStr "tools/list")].

Definition joke_request : dict :=
  [("jsonrpc", JStr "2.0");
   ("id", JInt 3);
   ("method", JStr "tools/call");
   ("params", JDict [("name", JStr "get_joke"); ("arguments", JDict [])])].

Definition add_request : dict :=
  [("jsonrpc", JStr "2.0");
   ("id", JInt 4);
   ("method", JStr "tools/call");
   ("params", JDict [("name", JStr "add_number");
                     ("arguments", JDict [("number", JInt 42)])])].

(** [add_request] without the number. *)
Definition add_nothing_request : dict :=
  [("jsonrpc", JStr "2.0");
   ("id", JInt 5);
   ("method", JStr "tools/call");
   ("params", JDict [("name", JStr "add_number"); ("arguments", JDict [])])].

(** A tool the catalog does not have. *)
Definition subtract_request : dict :=
  [("jsonrpc", JStr "2.0");
   ("id", JInt 6);
   ("method", JStr "tools/call");
   ("params", JDict [("name", JStr "subtract_number");
                     ("arguments", JDict [("number", JInt 42)])])].

(** A [tools/call] with positional parameters. *)
Definition positional_request : dict :=
  [("jsonrpc", JStr "2.0");
   ("id", JInt 7);
   ("method", JStr "tools/call");
   ("params", JList [JStr "add_number"; JInt 42])].

(** The notification of the client, sent with an id. *)
Definition initialized_with_id : dict :=
  [("jsonrpc", JStr "2.0");
   ("id", JInt 8);
   ("method", JStr "notifications/initialized")].

Definition ping_request : dict :=
  [("jsonrpc", JStr "2.0"); ("id", JInt 9); ("method", JStr "ping")].

Definition peer_a : string := "127.0.0.1:50814".

Definition peer_b : string := "127.0.0.1:50922".

Definition noon : string := "2025-06-01T12:00:00.000000".

Definition sent (api : downstream) (request_data : dict) : event :=
  {| ev_api := api; ev_now := noon; ev_client := peer_a;
     ev_request := request_data |}.

(** The call [add_number] issues for 42. *)
Definition adder_call : http_call :=
  {| verb := POST;
     url := "http://localhost:8000/adder";
     payload := JDict [("number", JInt 42)] |}.

(** ** The statistics endpoint of [mcp_server_http.py] *)

(** What [get_server_stats] returns, field by field. *)
Record server_stats : Type := {
  server_status : string;
  stats_connected_clients : nat;
  client_details : gmap string session;
  total_tools : nat;
  uptime : string
}.

Definition get_server_stats (st : server) : server_stats :=
  {| server_status := "running";
     stats_connected_clients := size (connected_clients st);
     client_details := client_sessions st;
     total_tools := length TOOLS;
     uptime := "Server running" |}.

(** ** Sessions in closed form

    What a run leaves in [client_sessions] for a peer, read off the events
    of the run. *)

Definition by_peer (peer : string) (ev : event) : bool :=
  String.eqb (ev_client ev) peer.

Definition is_initialize (ev : event) : bool :=
  is_str (method_of (ev_request ev)) "initialize".

(** The events that add one to the counter of an open session. *)
Definition counted (ev : event) : bool :=
  is_initialize ev
  || is_str (method_of (ev_request ev)) "tools/list"
  || (is_str (method_of (ev_request ev)) "tools/call"
      && is_dict (params_of (ev_request ev))).

(** The record a [tools/call] leaves in the history of an open session. *)
Definition recorded (ev : event) : option invocation :=
  if is_str (method_of (ev_request ev)) "tools/call" then
    match params_of (ev_request ev) with
    | JDict p =>
        Some {| tool_name := default JNull (dict_get p "name");
                arguments := default (JDict []) (dict_get p "arguments");
                timestamp := ev_now ev |}
    | _ => None
    end
  else None.

(** The first [initialize] of [peer] and the events after it. *)
Fixpoint since_initialize (peer : string) (evs : list event)
  : option (event * list event) :=
  match evs with
  | [] => None
  | ev :: rest =>
      if by_peer peer ev && is_initialize ev then Some (ev, rest)
      else since_initialize peer rest
  end.

Definition session_of (peer : string) (evs : list event) : option session :=
  match since_initialize peer evs with
  | None => None
  | Some (opening, rest) =>
      let mine := List.filter (by_peer peer) rest in
      Some {| connected_at := ev_now opening;
              requests_count :=
                1 + Z.of_nat (length (List.filter counted mine));
              tools_called := omap recorded mine |}
  end.

(** [s'] continues [s]: same opening time, a counter at least as large, a
    history that starts with the history of [s]. *)
Definition continues (s s' : session) : Prop :=
  connected_at s' = connected_at s /\
  requests_count s <= requests_count s' /\
  tools_called s `prefix_of` tools_called s'.

(** ** The endpoints of the business API

    The path and the verb every method of [BusinessServerMCP] uses. *)
Definition ENDPOINTS : list (string * (http_verb * string)) :=
  [("register_agent", (POST, "/register"));
   ("report_status", (POST, "/report_status"));
   ("get_tasks", (GET, "/tasks"));
   ("add_number", (POST, "/adder"));
   ("get_joke", (GET, "/joke"))].

Fixpoint endpoint_of (name : string)
  (table : list (string * (http_verb * string)))
  : option (http_verb * string) :=
  match table with
  | [] => None
  | (n, e) :: table' =>
      if String.eqb n name then Some e else endpoint_of name table'
  end.

(** ** [business_server.py] *)

Module Business.

Record AgentRegistration : Type := {
  name : string;
  version : string
}.

Record StatusReport : Type := {
  agent_id : string;
  status : string;
  cpu_usage : option spec_float;
  memory_usage : option spec_float
}.

(** The module-level store [agents]. *)
Abbreviation store := (gmap string AgentRegistration).

Definition tasks : json :=
  JDict [("task1", JDict [("description", JStr "Update inventory");
                          ("priority", JStr "high")]);
         ("task2", JDict [("description", JStr "Sync logs");
                          ("priority", JStr "medium")])].

(** [register_agent]; [uuid] is the value of [str(uuid4())]. *)
Definition register_agent (uuid : string) (agent : AgentRegistration)
  (agents : store) : json * store :=
  (JDict [("agent_id", JStr uuid)], <[uuid := agent]> agents).

Definition report_status (report : StatusReport) (agents : store)
  : result json :=
  match agents !! agent_id report with
  | None => Raise (HTTPException 404 "Agent not found")
  | Some _ =>
      Ok (JDict [("message",
                  JStr ("Status received for agent " +:+ agent_id report))])
  end.

Definition get_tasks (agent_id : string) (agents : store) : result json :=
  match agents !! agent_id with
  | None => Raise (HTTPException 404 "Agent not found")
  | Some _ => Ok (JDict [("tasks", tasks)])
  end.

(** [get_joke]; [upstream] is what [requests.get], [raise_for_status] and
    [response.json()] give for the joke API: the decoded body, or a
    [requests.RequestException]. An [AttributeError] of [data.get] is not
    a [RequestException] and passes the [except]. *)
Definition get_joke {rt : PyRuntime} (upstream : reply) : result json :=
  match upstream with
  | Replied data =>
      try setup <- py_get data "setup" JNull ;;
      try punchline <- py_get data "punchline" JNull ;;
      Ok (JDict [("setup", setup); ("punchline", punchline)])
  | Failed _ => Raise (HTTPException 503 "Could not fetch joke")
  end.

(** The store after a series of registrations. *)
Definition register_all (regs : list (string * AgentRegistration))
  (agents : store) : store :=
  fold_left (fun a r => (register_agent r.1 r.2 a).2) regs agents.

End Business.

(** The calls the gateway issues for a status report and for a joke. *)
Definition joke_call : http_call :=
  {| verb := GET; url := "http://localhost:8000/joke"; payload := JNull |}.

(** ** More of the Python runtime, for the client

    The message of the [TypeError] that [x in v] raises for a [v] that is
    no container, the message of the one that [for x in v] raises for a
    [v] that cannot be walked, and the characters of a [str] as [for]
    walks them. *)
Class PyContainers : Type := {
  not_container_error : json -> string;
  not_iterable_error : json -> string;
  characters : string -> list string
}.

(** [bool(v)] *)
Definition truthy (v : json) : bool :=
  match v with
  | JNull => false
  | JBool b => b
  | JInt n => negb (n =? 0)
  | JFloat (S754_zero _) => false
  | JFloat _ => true
  | JStr s => negb (String.eqb s "")
  | JList l => match l with [] => false | _ => true end
  | JDict d => match d with [] => false | _ => true end
  end.

(** [k in v] for a string [k]: a key of a dict, an element of a list, a
    substring of a str. *)
Definition py_contains {pc : PyContainers} (k : string) (v : json)
  : result bool :=
  match v with
  | JDict d => Ok (match dict_get d k with Some _ => true | None => false end)
  | JList l => Ok (existsb (fun x => is_str x k) l)
  | JStr s => Ok (contains k s)
  | _ => Raise (TypeError (not_container_error v))
  end.

(** The values [for x in v] walks. *)
Definition py_iter {pc : PyContainers} (v : json) : result (list json) :=
  match v with
  | JList l => Ok l
  | JDict d => Ok ((fun kv => JStr kv.1) <$> d)
  | JStr s => Ok (JStr <$> characters s)
  | _ => Raise (TypeError (not_iterable_error v))
  end.

(** ** [mcp_client.py]: the manager of the connection to the MCP server *)

Module Client.

(** The gateway's [call_tool], which the [call_tool] of the manager
    shadows in this module. *)
Abbreviation gateway_call_tool := call_tool.

(** The dataclass [Tool]. *)
Record Tool : Type := {
  name : json;
  description : json;
  input_schema : json
}.

(** [MCPServerManager]: whether [self.client] is set, and [self.tools]. *)
Record manager : Type := {
  client_open : bool;
  tools : list Tool
}.

Definition fresh : manager := {| client_open := false; tools := [] |}.

(** What a method of the manager can raise. *)
Inductive error : Type :=
| RuntimeError (msg : string)
| Exception (msg : string)
| Python (e : exn).

Inductive outcome (A : Type) : Type :=
| Done (a : A)
| Fail (e : error).
Arguments Done {A} a.
Arguments Fail {A} e.

Definition of_result {A} (r : result A) : outcome A :=
  match r with
  | Ok a => Done a
  | Raise e => Fail (Python e)
  end.

Definition bind {A B} (m : outcome A) (f : A -> outcome B) : outcome B :=
  match m with
  | Done a => f a
  | Fail e => Fail e
  end.

Notation "'let!' x := m 'in' k" := (bind m (fun x => k))
  (at level 10, x name, m at level 99, k at level 200).

(** What [self.client.get(".../health")] comes to. *)
Inductive health : Type :=
| Status (status_code : Z)
| ConnectError
| OtherError.

Definition SERVER_HOST : string := "localhost".
Definition SERVER_PORT : Z := 3000.

Definition init_request : dict :=
  [("jsonrpc", JStr "2.0");
   ("id", JInt 1);
   ("method", JStr "initialize");
   ("params",
    JDict [("protocolVersion", JStr "2024-11-05");
           ("capabilities", JDict [("tools", JDict [])]);
           ("clientInfo", JDict [("name", JStr "mcp-client");
                                 ("version", JStr "1.0.0")])])].

Definition initialized_notification : dict :=
  [("jsonrpc", JStr "2.0"); ("method", JStr "notifications/initialized")].

Definition tools_request : dict :=
  [("jsonrpc", JStr "2.0"); ("id", JInt 2); ("method", JStr "tools/list")].

Definition tool_request (tool_name arguments : json) : dict :=
  [("jsonrpc", JStr "2.0");
   ("id", JInt 3);
   ("method", JStr "tools/call");
   ("params", JDict [("name", tool_name); ("arguments", arguments)])].

Section Manager.
Context {rt : PyRuntime} {pc : PyContainers}.
(** The world the manager talks to, and what it answers: to a POST on
    [/mcp], the decoded body, or nothing when the request, the status check
    or the decoding raised; to a GET on [/health]. *)
Variable world : Type.
Variable post : dict -> world -> option json * world.
Variable probe : world -> health * world.

Definition _check_server_health (w : world) : outcome unit * world :=
  let '(h, w') := probe w in
  match h with
  | ConnectError =>
      (Fail (Exception ("Cannot connect to MCP server at " +:+ SERVER_HOST
                        +:+ ":" +:+ decimal SERVER_PORT
                        +:+ ". Make sure it's running.")), w')
  | Status _ => (Done tt, w')
  | OtherError => (Done tt, w')
  end.

Definition _send_request (m : manager) (request : dict) (w : world)
  : outcome (option json) * world :=
  if client_open m then
    let '(response, w') := post request w in (Done response, w')
  else (Fail (RuntimeError "Not connected to MCP server"), w).

Definition _send_notification (m : manager) (notification : dict)
  (w : world) : outcome unit * world :=
  if client_open m then
    let '(_, w') := post notification w in (Done tt, w')
  else (Fail (RuntimeError "Not connected to MCP server"), w).

Definition _initialize_server (m : manager) (w : world)
  : outcome unit * world :=
  match _send_request m init_request w with
  | (Fail e, w1) => (Fail e, w1)
  | (Done _, w1) => _send_notification m initialized_notification w1
  end.

(** [response and "result" in response and k in response["result"]] *)
Definition has_result_with (k : string) (response : option json)
  : outcome bool :=
  match response with
  | None => Done false
  | Some r =>
      if truthy r then
        let! has_result := of_result (py_contains "result" r) in
        if has_result then
          let! result := of_result (py_getitem r "result") in
          of_result (py_contains k result)
        else Done false
      else Done false
  end.

(** [Tool(name=tool["name"], ...)] for every [tool] of the walk. *)
Fixpoint load_tools (entries : list json) : outcome (list Tool) :=
  match entries with
  | [] => Done []
  | tool :: entries' =>
      let! n := of_result (py_getitem tool "name") in
      let! d := of_result (py_getitem tool "description") in
      let! s := of_result (py_getitem tool "inputSchema") in
      let! rest := load_tools entries' in
      Done ({| name := n; description := d; input_schema := s |} :: rest)
  end.

Definition _get_tools (m : manager) (w : world) : outcome manager * world :=
  match _send_request m tools_request w with
  | (Fail e, w1) => (Fail e, w1)
  | (Done response, w1) =>
      (let! listed := has_result_with "tools" response in
       if listed then
         match response with
         | Some r =>
             let! result := of_result (py_getitem r "result") in
             let! entries := of_result (py_getitem result "tools") in
             let! walk := of_result (py_iter entries) in
             let! loaded := load_tools walk in
             Done {| client_open := client_open m; tools := loaded |}
         | None => Done m
         end
       else Done m, w1)
  end.

(** [call_tool] of the manager: the text of the first content block. *)
Definition call_tool (m : manager) (tool_name arguments : json) (w : world)
  : outcome json * world :=
  match _send_request m (tool_request tool_name arguments) w with
  | (Fail e, w1) => (Fail e, w1)
  | (Done response, w1) =>
      (let! answered := has_result_with "content" response in
       if answered then
         match response with
         | Some r =>
             let! result := of_result (py_getitem r "result") in
             let! content := of_result (py_getitem result "content") in
             match content with
             | JList (first :: _) =>
                 of_result (py_get first "text" (JStr (py_str content)))
             | _ => Done (JStr (py_str content))
             end
         | None => Done (JStr "No response from tool")
         end
       else Done (JStr "No response from tool"), w1)
  end.

(** [connect_to_server]: the manager as the call leaves it, raising or
    not. *)
Definition connect_to_server (m : manager) (w : world)
  : outcome unit * manager * world :=
  let m1 := {| client_open := true; tools := tools m |} in
  match _check_server_health w with
  | (Fail e, w1) => (Fail e, m1, w1)
  | (Done _, w1) =>
      match _initialize_server m1 w1 with
      | (Fail e, w2) => (Fail e, m1, w2)
      | (Done _, w2) =>
          match _get_tools m1 w2 with
          | (Fail e, w3) => (Fail e, m1, w3)
          | (Done m2, w3) => (Done tt, m2, w3)
          end
      end
  end.

End Manager.

(** *** The manager wired to the dispatcher

    The world is the server state and the number of requests served so
    far, which picks the clock reading and the behaviour of the business
    API for the next one; the manager keeps one connection, so the
    dispatcher sees one [peer]; the dispatcher always answers, with
    status 200 and its envelope as the body, and JSON goes over the wire
    unchanged. *)
Section Wired.
Context {rt : PyRuntime}.
Variable apis : nat -> downstream.
Variable clock : nat -> string.
Variable peer : string.

Definition served (request : dict) (w : server * nat)
  : option json * (server * nat) :=
  let h := handle_mcp_request (apis w.2) (clock w.2) peer request w.1 in
  (Some (response h), (after h, S w.2)).

Definition healthy (w : server * nat) : health * (server * nat) :=
  (Status 200, w).

End Wired.

(** *** [ChatBot]

    [chat] of a [ChatBot] that [initialize] has given its completion
    client, with the completion service and [json.loads] as givens: what
    [chat_completion] returns for a transcript (and the tools offered, if
    any), which is a text or the message of the model, and what
    [json.loads] makes of a value. *)

Record Message : Type := {
  role : string;
  content : string
}.

(** The part of [ChatBot] that [chat] reads and writes. *)
Record chatbot : Type := {
  mcp_manager : manager;
  conversation_history : list Message
}.

Inductive chat_error : Type :=
| Manager (e : error)
| JsonLoads (msg : string).

Definition str_error {rt : PyRuntime} (e : chat_error) : string :=
  match e with
  | Manager (RuntimeError msg) => msg
  | Manager (Exception msg) => msg
  | Manager (Python e) => str_exn e
  | JsonLoads msg => msg
  end.

(** [sep.join(parts)] *)
Fixpoint join (sep : string) (parts : list string) : string :=
  match parts with
  | [] => ""
  | [part] => part
  | part :: parts' => part +:+ sep +:+ join sep parts'
  end.

Definition FOLLOW_UP : Message :=
  {| role := "user";
     content :=
       "Please provide a helpful response based on the tool results above." |}.

Section Chat.
Context {rt : PyRuntime} {pc : PyContainers}.
Variable world : Type.
Variable post : dict -> world -> option json * world.
Variable chat_completion :
  list Message -> option (list Tool) -> world -> json * world.
(** [json.loads(v)]: the value, or the message of what it raises. *)
Variable json_loads : json -> string + json.

(** What a proposal of the model asks for: the tool and its arguments. *)
Definition read_tool_call (tool_call : json)
  : chat_error + (json * json) :=
  match py_getitem tool_call "function" with
  | Raise e => inl (Manager (Python e))
  | Ok function =>
      match py_getitem function "name" with
      | Raise e => inl (Manager (Python e))
      | Ok tool_name =>
          match py_getitem function "arguments" with
          | Raise e => inl (Manager (Python e))
          | Ok raw =>
              match json_loads raw with
              | inl msg => inl (JsonLoads msg)
              | inr arguments => inr (tool_name, arguments)
              end
          end
      end
  end.

(** The body of [for tool_call in response["tool_calls"]]. *)
Fixpoint call_tools (m : manager) (tool_calls : list json) (w : world)
  : (chat_error + list string) * world :=
  match tool_calls with
  | [] => (inr [], w)
  | tool_call :: tool_calls' =>
      match read_tool_call tool_call with
      | inl e => (inl e, w)
      | inr (tool_name, arguments) =>
          match call_tool world post m tool_name arguments w with
          | (Fail e, w1) => (inl (Manager e), w1)
          | (Done tool_result, w1) =>
              match call_tools m tool_calls' w1 with
              | (inl e, w2) => (inl e, w2)
              | (inr tool_results, w2) =>
                  (inr (("Tool '" +:+ py_str tool_name +:+ "' result: "
                         +:+ py_str tool_result) :: tool_results), w2)
              end
          end
      end
  end.

Definition error_msg (e : chat_error) : string :=
  "Error processing your request: " +:+ str_error e.

Definition chat (bot : chatbot) (user_input : string) (w : world)
  : string * chatbot * world :=
  let m := mcp_manager bot in
  let history1 :=
    conversation_history bot ++ [{| role := "user"; content := user_input |}] in
  let with_history h := {| mcp_manager := m; conversation_history := h |} in
  let '(response, w1) := chat_completion history1 (Some (tools m)) w in
  let plain :=
    (py_str response,
     with_history (history1 ++ [{| role := "assistant";
                                   content := py_str response |}]),
     w1) in
  match response with
  | JDict d =>
      match dict_get d "tool_calls" with
      | Some tool_calls =>
          match py_iter tool_calls with
          | Raise e =>
              (error_msg (Manager (Python e)), with_history history1, w1)
          | Ok walk =>
              match call_tools m walk w1 with
              | (inl e, w2) => (error_msg e, with_history history1, w2)
              | (inr tool_results, w2) =>
                  let tool_message :=
                    {| role := "assistant";
                       content := "I used some tools to help you. "
                                  +:+ join " " tool_results |} in
                  let history2 := history1 ++ [tool_message] in
                  let '(final_response, w3) :=
                    chat_completion (history2 ++ [FOLLOW_UP]) None w2 in
                  (py_str final_response,
                   with_history
                     (history2 ++ [{| role := "assistant";
                                      content := py_str final_response |}]),
                   w3)
              end
          end
      | None => plain
      end
  | _ => plain
  end.

End Chat.

(** *** The chat wired to the dispatcher

    The world is the server with its request count, and the state of the
    completion service beside it: posting moves the first, completing
    moves the second. *)
Section WiredChat.
Context {rt : PyRuntime}.
Variable apis : nat -> downstream.
Variable clock : nat -> string.
Variable peer : string.
Variable service : Type.
Variable llm :
  list Message -> option (list Tool) -> service -> json * service.

Definition wired_post (request : dict) (w : server * nat * service)
  : option json * (server * nat * service) :=
  let '(answer, sn) := served apis clock peer request w.1 in
  (answer, (sn, w.2)).

Definition wired_completion (messages : list Message)
  (offered : option (list Tool)) (w : server * nat * service)
  : json * (server * nat * service) :=
  let '(answer, l) := llm messages offered w.2 in (answer, (w.1, l)).

(** The requests the dispatcher gets for a series of tool calls that
    starts when [n] requests were served, the texts the gateway gives,
    line by line, and the records the calls leave in a history. *)
Fixpoint tool_events (n : nat) (proposed : list (json * json))
  : list event :=
  match proposed with
  | [] => []
  | (tool_name, arguments) :: proposed' =>
      {| ev_api := apis n; ev_now := clock n; ev_client := peer;
         ev_request := tool_request tool_name arguments |}
      :: tool_events (S n) proposed'
  end.

Fixpoint tool_lines (n : nat) (proposed : list (json * json))
  : list string :=
  match proposed with
  | [] => []
  | (tool_name, arguments) :: proposed' =>
      ("Tool '" +:+ py_str tool_name +:+ "' result: "
       +:+ (gateway_call_tool (apis n) tool_name arguments).1)
      :: tool_lines (S n) proposed'
  end.

Fixpoint tool_records (n : nat) (proposed : list (json * json))
  : list invocation :=
  match proposed with
  | [] => []
  | (tool_name, arguments) :: proposed' =>
      {| tool_name := tool_name; arguments := arguments;
         timestamp := clock n |}
      :: tool_records (S n) proposed'
  end.

End WiredChat.

End Client.

(** The [Tool] a catalog entry is loaded as. *)
Definition as_tool (t : json) : Client.Tool :=
  {| Client.name := default JNull (member "name" t);
     Client.description := default JNull (member "description" t);
     Client.input_schema := default JNull (member "inputSchema" t) |}.

(** ** More to evaluate the bridge on *)

(** Containers as CPython 3.11 has them, for text in ASCII. *)
Definition example_containers : PyContainers :=
  {| not_container_error := fun v =>
       "argument of type '" +:+ type_name v +:+ "' is not iterable";
     not_iterable_error := fun v =>
       "'" +:+ type_name v +:+ "' object is not iterable";
     characters := fun s =>
       (fun c => String c EmptyString) <$> list_ascii_of_string s |}.

(** An [initialize] with positional parameters. *)
Definition positional_init_request : dict :=
  [("jsonrpc", JStr "2.0");
   ("id", JInt 10);
   ("method", JStr "initialize");
   ("params", JList [JStr "2024-11-05"])].

Definition joke_body : json :=
  JDict [("setup", JStr "Why did the chicken cross the road?");
         ("punchline", JStr "To get to the other side.")].

(** A joke the joke API sent without its setup. *)
Definition half_joke : dict :=
  [("punchline", JStr "To get to the other side.")].

Definition example_agent : Business.AgentRegistration :=
  {| Business.name := "ChatBot"; Business.version := "1.0.0" |}.

Definition example_uuid : string := "0b7e5bd6-3c0e-4c2f-9a55-7f2f6f1f4a10".

Definition example_report : Business.StatusReport :=
  {| Business.agent_id := example_uuid; Business.status := "active";
     Business.cpu_usage := None; Business.memory_usage := None |}.

Definition connected_manager : Client.manager :=
  {| Client.client_open := true; Client.tools := as_tool <$> TOOLS |}.

Definition example_bot : Client.chatbot :=
  {| Client.mcp_manager := connected_manager;
     Client.conversation_history :=
       [{| Client.role := "system";
           Client.content := "You are a helpful assistant." |}] |}.

(** A proposal of the model to call [get_joke] without arguments, and one
    that lacks its function. *)
Definition joke_proposal : json :=
  JDict [("id", JStr "call_1");
         ("type", JStr "function");
         ("function", JDict [("name", JStr "get_joke");
                             ("arguments", JStr "{}")])].

Definition empty_proposal : json := JDict [("id", JStr "call_2")].

(** A model that proposes [proposals] when it is offered tools and
    answers with a text otherwise. *)
Definition example_llm (proposals : list json)
  (messages : list Client.Message) (offered : option (list Client.Tool))
  (l : unit) : json * unit :=
  match offered with
  | Some _ =>
      (JDict [("role", JStr "assistant");
              ("content", JNull);
              ("tool_calls", JList proposals)], l)
  | None => (JStr "Here is a joke for you.", l)
  end.

(** [json.loads] on the one text the examples use. *)
Definition example_json_loads (v : json) : string + json :=
  if is_str v "{}" then inr (JDict [])
  else inl "Expecting value: line 1 column 1 (char 0)".
(** * Properties *)

(** ** Values *)

Lemma is_str_true (v : json) (s : string) : is_str v s = true <-> v = JStr s.
Proof.
  destruct v; simpl; try (split; [discriminate | congruence]).
  rewrite String.eqb_eq. split; congruence.
Qed.

Lemma is_str_false (v : json) (s : string) : v <> JStr s -> is_str v s = false.
Proof.
  intros Hne. destruct (is_str v s) eqn:E; [|reflexivity].
  apply is_str_true in E. contradiction.
Qed.

Lemma is_str_refl (s : string) : is_str (JStr s) s = true.
Proof. apply is_str_true. reflexivity. Qed.

Lemma catalog_names : entry_name <$> TOOLS = JStr <$> REGISTERED.
Proof. reflexivity. Qed.

(** The catalog entry of a name is found exactly for the five names. *)
Lemma registered_known (name entry : json) :
  registered name = Some entry ->
  exists s, name = JStr s /\ s ∈ REGISTERED /\ entry_name entry = JStr s.
Proof.
  unfold registered. intros Hfind.
  destruct (List.find_some _ _ Hfind) as [Hin Hname].
  destruct name as [| | | |s| |]; try discriminate.
  apply is_str_true in Hname. exists s.
  split; [reflexivity|]. split; [|exact Hname].
  apply (List.in_map entry_name) in Hin.
  change (List.map entry_name TOOLS) with (JStr <$> REGISTERED) in Hin.
  apply list_elem_of_In in Hin. rewrite Hname in Hin.
  apply list_elem_of_fmap in Hin as (s' & Heq & Hs'). congruence.
Qed.

(** ** The gateway *)

Section Gateway.
Context {rt : PyRuntime}.
Variable api : downstream.

Lemma call_tool_unknown (name args : json) :
  (forall s, s ∈ REGISTERED -> name <> JStr s) ->
  call_tool api name args = ("Unknown tool: " +:+ py_str name, []).
Proof.
  intros Hnot. unfold call_tool, call_tool_try.
  rewrite !is_str_false; [reflexivity|..];
    apply Hnot; apply list_elem_of_In; simpl; tauto.
Qed.

(** Walks through [call_tool_try]: the branch, every subscript and [get],
    and the reply of the business API. *)
Ltac gw_walk :=
  repeat first
    [ progress (cbn [gw_bind gw_lift gw_ret fst snd app] in * )
    | match goal with
      | |- context [py_getitem ?a ?k] => destruct (py_getitem a k) eqn:?
      | |- context [py_get ?a ?k ?d] => destruct (py_get a k d) eqn:?
      | |- context [api ?c] => destruct (api c) eqn:?
      end ].

Ltac gw_branches name :=
  unfold handle_call_tool, handle_call_tool_try, call_tool, call_tool_try;
  destruct (is_str name "register_agent") eqn:?;
  [| destruct (is_str name "report_status") eqn:?;
     [| destruct (is_str name "get_tasks") eqn:?;
        [| destruct (is_str name "add_number") eqn:?;
           [| destruct (is_str name "get_joke") eqn:? ]]]];
  unfold register_agent, report_status, get_tasks, add_number, get_joke,
    request.

Lemma call_tool_at_most_one_call (name args : json) :
  (length (call_tool api name args).2 <= 1)%nat.
Proof. gw_branches name; gw_walk; simpl; lia. Qed.

(** The stdio server answers with the text of [call_tool], after the same
    downstream calls. *)
Lemma handle_call_tool_agrees (name args : json) :
  handle_call_tool api name args
  = ([{| type := "text"; text := (call_tool api name args).1 |}],
     (call_tool api name args).2).
Proof. gw_branches name; gw_walk; reflexivity. Qed.

Lemma call_tool_failed (name args : json) (c : http_call) (cause : string) :
  c ∈ (call_tool api name args).2 ->
  api c = Failed cause ->
  (call_tool api name args).1
  = "Error executing " +:+ py_str name +:+ ": " +:+ cause.
Proof.
  gw_branches name; gw_walk; simpl; intros Hin Hc;
    try (apply elem_of_nil in Hin; contradiction);
    apply list_elem_of_singleton in Hin; subst c; congruence.
Qed.

Lemma call_tool_missing_argument (name entry : json) (a : dict) :
  registered name = Some entry ->
  (exists f, JStr f ∈ entry_required entry /\ dict_get a f = None) ->
  exists f,
    JStr f ∈ entry_required entry /\ dict_get a f = None /\
    call_tool api name (JDict a)
    = ("Error executing " +:+ py_str name +:+ ": '" +:+ f +:+ "'", []).
Proof.
  intros Hreg (f & Hf & Hnone).
  destruct name as [| | | |s| |]; try discriminate.
  unfold registered in Hreg. cbn [List.find TOOLS] in Hreg.
  repeat match type of Hreg with
         | (if is_str ?n s then _ else _) = _ =>
             let E := fresh "E" in
             destruct (is_str n s) eqn:E;
             [ apply is_str_true in E; cbv in E; injection E as <-;
               injection Hreg as <- |]
         end; try discriminate;
    cbv [entry_required tool dict_get String.eqb Ascii.eqb Bool.eqb] in Hf;
    cbn [dict_get] in Hf;
    unfold call_tool, call_tool_try; cbn [is_str String.eqb Ascii.eqb Bool.eqb];
    cbn [py_getitem].
  all: repeat match goal with
         | |- context [dict_get ?d ?k] =>
             let E := fresh "E" in
             destruct (dict_get d k) eqn:E;
             [ cbn [gw_bind gw_lift] |
               exists k; split;
               [ apply list_elem_of_In; simpl; tauto
               | split; [exact E | reflexivity] ] ]
         end.
  all: exfalso; apply list_elem_of_In in Hf; simpl in Hf; intuition congruence.
Qed.

End Gateway.

(** ** The dispatcher, branch by branch *)

(** Decides the comparisons of a literal method with the four literals. *)
Ltac decide_literals :=
  repeat match goal with
         | |- context [is_str (JStr ?a) ?b] =>
             let v := eval vm_compute in (is_str (JStr a) b) in
             change (is_str (JStr a) b) with v
         end;
  cbv iota.

Section DispatcherFacts.
Context {rt : PyRuntime}.
Variable api : downstream.
Variable now : string.
Variable client_id : string.

Lemma handle_notification (request_data : dict) (st : server) :
  method_of request_data = JStr "notifications/initialized" ->
  handle_mcp_request api now client_id request_data st
  = {| response := JDict [("jsonrpc", JStr "2.0")]; after := st; calls := [] |}.
Proof.
  intros Hm. unfold handle_mcp_request, handle_try. rewrite Hm.
  decide_literals. reflexivity.
Qed.

Lemma handle_tools_list (request_data : dict) (st : server) :
  method_of request_data = JStr "tools/list" ->
  handle_mcp_request api now client_id request_data st
  = {| response := success_tools (id_of request_data);
       after := match client_sessions st !! client_id with
                | Some s => with_sessions st (<[client_id := count_request s]>
                                                (client_sessions st))
                | None => st
                end;
       calls := [] |}.
Proof.
  intros Hm. unfold handle_mcp_request, handle_try. rewrite Hm.
  decide_literals. reflexivity.
Qed.

Lemma handle_tools_call (request_data p : dict) (st : server) :
  method_of request_data = JStr "tools/call" ->
  params_of request_data = JDict p ->
  let name := default JNull (dict_get p "name") in
  let args := default (JDict []) (dict_get p "arguments") in
  handle_mcp_request api now client_id request_data st
  = {| response := success_text (id_of request_data)
                                (call_tool api name args).1;
       after := match client_sessions st !! client_id with
                | Some s =>
                    with_sessions st (<[client_id := called now name args s]>
                                        (client_sessions st))
                | None => st
                end;
       calls := (call_tool api name args).2 |}.
Proof.
  intros Hm Hp. unfold handle_mcp_request, handle_try. rewrite Hm, Hp.
  decide_literals. unfold py_get.
  destruct (dict_get p "name"), (dict_get p "arguments");
    cbv [default from_option id];
    match goal with
    | |- context [call_tool api ?n ?a] => destruct (call_tool api n a)
    end; reflexivity.
Qed.

(** A [tools/call] whose [params] is not a dict stops at [params.get]. *)
Lemma handle_tools_call_malformed (request_data : dict) (st : server) :
  method_of request_data = JStr "tools/call" ->
  is_dict (params_of request_data) = false ->
  handle_mcp_request api now client_id request_data st
  = {| response :=
         internal_error (id_of request_data)
           ("'" +:+ type_name (params_of request_data)
            +:+ "' object has no attribute 'get'");
       after := st;
       calls := [] |}.
Proof.
  intros Hm Hp. unfold handle_mcp_request, handle_try. rewrite Hm.
  decide_literals.
  destruct (params_of request_data); try discriminate; reflexivity.
Qed.

Lemma handle_unknown_method (request_data : dict) (st : server) :
  (forall m, m ∈ METHODS -> method_of request_data <> JStr m) ->
  handle_mcp_request api now client_id request_data st
  = {| response :=
         internal_error (id_of request_data)
           (str_exn (HTTPException 400
                       ("Unknown method: "
                        +:+ py_str (method_of request_data))));
       after := st;
       calls := [] |}.
Proof.
  intros Hnot. unfold handle_mcp_request, handle_try.
  rewrite !is_str_false; [reflexivity|..];
    apply Hnot; apply list_elem_of_In; simpl; tauto.
Qed.

Lemma handle_initialize (request_data : dict) (st : server) :
  method_of request_data = JStr "initialize" ->
  let st1 :=
    if decide (client_id ∈ connected_clients st) then st
    else {| connected_clients := {[client_id]} ∪ connected_clients st;
            client_sessions :=
              <[client_id := {| connected_at := now;
                                requests_count := 0;
                                tools_called := [] |}]>
                (client_sessions st) |} in
  after (handle_mcp_request api now client_id request_data st)
  = match client_sessions st1 !! client_id with
    | Some s => with_sessions st1 (<[client_id := count_request s]>
                                     (client_sessions st1))
    | None => st1
    end /\
  calls (handle_mcp_request api now client_id request_data st) = [].
Proof.
  intros Hm. unfold handle_mcp_request, handle_try. rewrite Hm.
  decide_literals. cbv zeta.
  match goal with
  | |- context [client_sessions ?st1 !! client_id] =>
      destruct (client_sessions st1 !! client_id)
  end; [|split; reflexivity].
  match goal with
  | |- context [res_bind ?r ?k] => destruct (res_bind r k)
  end; split; reflexivity.
Qed.

(** [initialize] answers with the server descriptor, or with the error
    envelope when [params] or its [clientInfo] is not a dict or the
    registries disagree. *)
Lemma handle_initialize_response (request_data : dict) (st : server) :
  method_of request_data = JStr "initialize" ->
  response (handle_mcp_request api now client_id request_data st)
  = JDict [("jsonrpc", JStr "2.0");
           ("id", id_of request_data);
           ("result", SERVER_INFO)] \/
  exists data,
    response (handle_mcp_request api now client_id request_data st)
    = internal_error (id_of request_data) data.
Proof.
  intros Hm. unfold handle_mcp_request, handle_try. rewrite Hm.
  decide_literals. cbv zeta.
  match goal with
  | |- context [client_sessions ?st1 !! client_id] =>
      destruct (client_sessions st1 !! client_id)
  end; [|right; eexists; reflexivity].
  destruct (py_get (params_of request_data) "clientInfo" (JDict []))
    as [client_info|e]; cbn [res_bind]; [|right; eexists; reflexivity].
  destruct (py_get client_info "name" (JStr "unknown"));
    cbn [res_bind]; [|right; eexists; reflexivity].
  destruct (py_get client_info "version" (JStr "unknown"));
    cbn [res_bind]; [|right; eexists; reflexivity].
  left. reflexivity.
Qed.

Lemma method_cases (v : json) :
  v = JStr "initialize" \/ v = JStr "notifications/initialized" \/
  v = JStr "tools/list" \/ v = JStr "tools/call" \/
  (forall m, m ∈ METHODS -> v <> JStr m).
Proof.
  destruct (is_str v "initialize") eqn:E1;
    [apply is_str_true in E1; tauto|].
  destruct (is_str v "notifications/initialized") eqn:E2;
    [apply is_str_true in E2; tauto|].
  destruct (is_str v "tools/list") eqn:E3;
    [apply is_str_true in E3; tauto|].
  destruct (is_str v "tools/call") eqn:E4;
    [apply is_str_true in E4; tauto|].
  do 4 right. intros m Hin Hv. subst v. cbn [is_str] in *.
  apply list_elem_of_In in Hin. simpl in Hin.
  destruct Hin as [<-|[<-|[<-|[<-|[]]]]]; discriminate.
Qed.

(** Splits on the branch [handle_mcp_request] takes and rewrites the call
    with the equation of that branch. *)
Ltac dispatch request_data st :=
  let Hm := fresh "Hm" in
  let Hp := fresh "Hp" in
  destruct (method_cases (method_of request_data))
    as [Hm|[Hm|[Hm|[Hm|Hm]]]];
  [ destruct (handle_initialize request_data st Hm) as [-> _]
  | rewrite (handle_notification request_data st Hm)
  | rewrite (handle_tools_list request_data st Hm)
  | destruct (params_of request_data) eqn:Hp;
    first [ rewrite (handle_tools_call request_data _ st Hm Hp)
          | rewrite (handle_tools_call_malformed request_data st Hm)
              by (rewrite Hp; reflexivity) ]
  | rewrite (handle_unknown_method request_data st Hm) ];
  cbn [after response calls].

(** A request touches no session but the sender's. *)
Lemma other_sessions_kept (request_data : dict) (st : server) (peer : string) :
  peer <> client_id ->
  client_sessions
    (after (handle_mcp_request api now client_id request_data st)) !! peer
  = client_sessions st !! peer.
Proof.
  intros Hne. dispatch request_data st; try reflexivity;
    repeat case_decide; cbn [client_sessions with_sessions];
    repeat match goal with
           | |- context [match ?o with Some _ => _ | None => _ end] =>
               destruct o
           end;
    cbn [client_sessions with_sessions];
    rewrite ?lookup_insert_ne by congruence; reflexivity.
Qed.

(** Only [initialize] opens a session. *)
Lemma no_session_opened (request_data : dict) (st : server) :
  method_of request_data <> JStr "initialize" ->
  client_sessions st !! client_id = None ->
  after (handle_mcp_request api now client_id request_data st) = st.
Proof.
  intros Hm Hnone. dispatch request_data st; try congruence;
    rewrite ?Hnone; reflexivity.
Qed.

Lemma is_Some_insert_present (m : gmap string session) (k peer : string)
  (v : session) :
  is_Some (m !! k) ->
  is_Some (<[k := v]> m !! peer) <-> is_Some (m !! peer).
Proof.
  intros Hk. rewrite lookup_insert_is_Some. split.
  - intros [<-|[_ H]]; assumption.
  - intros H. destruct (decide (k = peer)); tauto.
Qed.

Lemma consistent_kept (request_data : dict) (st : server) :
  consistent st ->
  consistent (after (handle_mcp_request api now client_id request_data st)).
Proof.
  unfold consistent. intros Hc peer.
  dispatch request_data st; try apply Hc.
  - case_decide as Hin.
    + destruct (proj1 (Hc client_id) Hin) as [s Hs]. rewrite Hs.
      cbn [client_sessions connected_clients with_sessions].
      rewrite is_Some_insert_present by eauto. apply Hc.
    + cbn [client_sessions connected_clients with_sessions].
      rewrite lookup_insert_eq.
      cbn [client_sessions connected_clients with_sessions].
      rewrite insert_insert_eq, lookup_insert_is_Some, elem_of_union,
        elem_of_singleton, Hc.
      destruct (decide (client_id = peer)); [subst; tauto|].
      intuition congruence.
  - destruct (client_sessions st !! client_id) eqn:Hs; [|apply Hc].
    cbn [client_sessions connected_clients with_sessions].
    rewrite is_Some_insert_present by eauto. apply Hc.
  - destruct (client_sessions st !! client_id) eqn:Hs; [|apply Hc].
    cbn [client_sessions connected_clients with_sessions].
    rewrite is_Some_insert_present by eauto. apply Hc.
Qed.

(** No request takes a session away or lowers its counter. *)
Lemma counter_kept (request_data : dict) (st : server) (peer : string)
  (s : session) :
  consistent st ->
  client_sessions st !! peer = Some s ->
  exists s',
    client_sessions
      (after (handle_mcp_request api now client_id request_data st)) !! peer
    = Some s' /\
    requests_count s <= requests_count s'.
Proof.
  intros Hc Hs. destruct (decide (peer = client_id)) as [->|Hne];
    [|exists s; rewrite other_sessions_kept by exact Hne;
      split; [exact Hs|lia]].
  dispatch request_data st;
    try rewrite decide_True by (apply Hc; eauto);
    rewrite ?Hs; cbn [client_sessions connected_clients with_sessions];
    first [ exists s; split; [reflexivity | lia]
          | eexists; split; [apply lookup_insert_eq | cbn; lia] ].
Qed.

End DispatcherFacts.

(** ** Runs *)

Section RunFacts.
Context {rt : PyRuntime}.

Lemma run_app (st : server) (evs1 evs2 : list event) :
  run st (evs1 ++ evs2) = run (run st evs1) evs2.
Proof. apply fold_left_app. Qed.

Lemma consistent_startup : consistent startup.
Proof.
  intros peer. cbn. rewrite lookup_empty, elem_of_empty.
  split; [tauto | intros [? ?]; discriminate].
Qed.

Lemma consistent_run (evs : list event) (st : server) :
  consistent st -> consistent (run st evs).
Proof.
  revert st. induction evs as [|ev evs IH]; intros st Hc; [exact Hc|].
  apply IH. apply consistent_kept. exact Hc.
Qed.

Lemma counter_run (evs : list event) (st : server) (peer : string)
  (s : session) :
  consistent st ->
  client_sessions st !! peer = Some s ->
  exists s',
    client_sessions (run st evs) !! peer = Some s' /\
    requests_count s <= requests_count s'.
Proof.
  revert st s. induction evs as [|ev evs IH]; intros st s Hc Hs.
  - exists s. split; [exact Hs | lia].
  - destruct (counter_kept (ev_api ev) (ev_now ev) (ev_client ev)
                (ev_request ev) st peer s Hc Hs) as (s1 & Hs1 & Hle1).
    destruct (IH (step st ev) s1) as (s2 & Hs2 & Hle2);
      [apply consistent_kept; exact Hc | exact Hs1 |].
    exists s2. split; [exact Hs2 | lia].
Qed.

(** A peer that never sent [initialize] has no session. *)
Lemma never_initialized (evs : list event) (st : server) (peer : string) :
  client_sessions st !! peer = None ->
  (forall ev, ev ∈ evs -> ev_client ev = peer ->
              method_of (ev_request ev) <> JStr "initialize") ->
  client_sessions (run st evs) !! peer = None.
Proof.
  revert st. induction evs as [|ev evs IH]; intros st Hnone Hnever;
    [exact Hnone|].
  apply IH.
  - unfold step, handle.
    destruct (decide (peer = ev_client ev)) as [->|Hne].
    + rewrite no_session_opened; [exact Hnone | | exact Hnone].
      apply Hnever; [left | reflexivity].
    + rewrite other_sessions_kept by exact Hne. exact Hnone.
  - intros ev' Hin. apply Hnever. right. exact Hin.
Qed.

End RunFacts.

(** ** The bridge, claim by claim *)

Section Claims.
Context {rt : PyRuntime}.

(** C1, as amended. A [tools/call] request whose [params] member is absent
    or a JSON object is always answered by a success envelope around one
    text block, the text of the gateway, and never by an error envelope,
    whether the tool ran, was unknown, lacked an argument or failed
    downstream; when the downstream call of a registered tool fails, the
    text is "Error executing <tool>: <cause>". *)
Theorem tools_call_surfaces_as_text (api : downstream)
  (now client_id : string) (request_data p : dict) (st : server) :
  method_of request_data = JStr "tools/call" ->
  params_of request_data = JDict p ->
  let name := default JNull (dict_get p "name") in
  let args := default (JDict []) (dict_get p "arguments") in
  let h := handle_mcp_request api now client_id request_data st in
  response h = success_text (id_of request_data) (call_tool api name args).1 /\
  member "error" (response h) = None /\
  (forall tool c cause,
      name = JStr tool -> tool ∈ REGISTERED ->
      c ∈ calls h -> api c = Failed cause ->
      response h
      = success_text (id_of request_data)
          ("Error executing " +:+ tool +:+ ": " +:+ cause)).
Proof.
  intros Hm Hp name args h. subst h.
  rewrite (handle_tools_call api now client_id request_data p st Hm Hp).
  cbn [response calls]. fold name args.
  split; [reflexivity|]. split; [reflexivity|].
  intros tool c cause Hname _ Hin Hfail.
  rewrite (call_tool_failed api name args c cause Hin Hfail), Hname.
  reflexivity.
Qed.

(** C2. A [tools/call] that names none of the five registered tools is
    answered with the text "Unknown tool: <name>", and no downstream call
    is issued; the stdio server answers the same. *)
Theorem unknown_tool_is_named_and_not_forwarded (api : downstream)
  (now client_id : string) (request_data p : dict) (st : server) :
  method_of request_data = JStr "tools/call" ->
  params_of request_data = JDict p ->
  let name := default JNull (dict_get p "name") in
  let args := default (JDict []) (dict_get p "arguments") in
  (forall tool, tool ∈ REGISTERED -> name <> JStr tool) ->
  let h := handle_mcp_request api now client_id request_data st in
  response h
  = success_text (id_of request_data) ("Unknown tool: " +:+ py_str name) /\
  calls h = [] /\
  handle_call_tool api name args
  = ([{| type := "text"; text := "Unknown tool: " +:+ py_str name |}], []).
Proof.
  intros Hm Hp name args Hnot h. subst h.
  rewrite (handle_tools_call api now client_id request_data p st Hm Hp).
  cbn [response calls]. fold name args.
  rewrite handle_call_tool_agrees, (call_tool_unknown api name args Hnot).
  repeat split.
Qed.

(** C3. A [tools/call] that names a registered tool and whose argument
    mapping lacks a field the schema of that tool requires issues no
    downstream call and is answered, in a success envelope, by the failure
    text "Error executing <tool>: '<field>'" for a required field that is
    missing; nothing is raised past the gateway. The stdio server answers
    the same. *)
Theorem missing_required_argument_is_reported (api : downstream)
  (now client_id : string) (request_data p a : dict) (entry : json)
  (st : server) :
  method_of request_data = JStr "tools/call" ->
  params_of request_data = JDict p ->
  let name := default JNull (dict_get p "name") in
  registered name = Some entry ->
  default (JDict []) (dict_get p "arguments") = JDict a ->
  (exists field, JStr field ∈ entry_required entry /\
                 dict_get a field = None) ->
  let h := handle_mcp_request api now client_id request_data st in
  exists field,
    JStr field ∈ entry_required entry /\ dict_get a field = None /\
    response h
    = success_text (id_of request_data)
        ("Error executing " +:+ py_str name +:+ ": '" +:+ field +:+ "'") /\
    calls h = [] /\
    handle_call_tool api name (JDict a)
    = ([{| type := "text";
           text := "Error executing " +:+ py_str name +:+ ": '" +:+ field
                   +:+ "'" |}], []).
Proof.
  intros Hm Hp name Hreg Ha Hmiss h. subst h.
  rewrite (handle_tools_call api now client_id request_data p st Hm Hp).
  cbn [response calls]. fold name. rewrite Ha.
  destruct (call_tool_missing_argument api name entry a Hreg Hmiss)
    as (field & Hin & Hnone & Hcall).
  exists field. rewrite handle_call_tool_agrees, Hcall.
  repeat split; assumption.
Qed.

(** C4. A request whose method is none of [initialize],
    [notifications/initialized], [tools/list] and [tools/call] is answered
    by an error envelope with code -32603, message "Internal error" and, as
    data, the printed exception that carries "Unknown method: <method>";
    the registries are left as they were and the call returns. *)
Theorem unknown_method_is_internal_error (api : downstream)
  (now client_id : string) (request_data : dict) (st : server) :
  (forall m, m ∈ METHODS -> method_of request_data <> JStr m) ->
  let h := handle_mcp_request api now client_id request_data st in
  let detail := "Unknown method: " +:+ py_str (method_of request_data) in
  response h
  = internal_error (id_of request_data) (str_exn (HTTPException 400 detail)) /\
  member "error" (response h)
  = Some (JDict [("code", JInt (-32603));
                 ("message", JStr "Internal error");
                 ("data", JStr (http_exception_str 400 detail))]) /\
  member "result" (response h) = None /\
  after h = st /\
  calls h = [].
Proof.
  intros Hnot h detail. subst h.
  rewrite (handle_unknown_method api now client_id request_data st Hnot).
  repeat split.
Qed.

End Claims.


Section MoreClaims.
Context {rt : PyRuntime}.

(** C5, as amended. Every envelope whose method is not
    [notifications/initialized] is answered by one envelope that carries
    the id of the request, on the error branch too, with a result or an
    error and not both; an envelope whose method is
    [notifications/initialized] is answered, with or without an id, by the
    bare protocol tag: no id, no result, no error. *)
Theorem responses_echo_the_request_id (api : downstream)
  (now client_id : string) (request_data : dict) (st : server) :
  let h := handle_mcp_request api now client_id request_data st in
  (forall i,
      dict_get request_data "id" = Some i ->
      method_of request_data <> JStr "notifications/initialized" ->
      member "id" (response h) = Some i /\
      (member "result" (response h) = None <->
       member "error" (response h) <> None)) /\
  (method_of request_data = JStr "notifications/initialized" ->
   response h = JDict [("jsonrpc", JStr "2.0")] /\
   member "id" (response h) = None /\
   member "result" (response h) = None /\
   member "error" (response h) = None).
Proof.
  intros h. subst h. split.
  - intros i Hid Hnot.
    assert (Hi : id_of request_data = i)
      by (unfold id_of; rewrite Hid; reflexivity).
    destruct (method_cases (method_of request_data))
      as [Hm|[Hm|[Hm|[Hm|Hm]]]].
    + destruct (handle_initialize_response api now client_id request_data st Hm)
        as [->|[data ->]]; rewrite Hi; cbn; split; try reflexivity;
        split; congruence.
    + contradiction.
    + rewrite (handle_tools_list api now client_id request_data st Hm), Hi.
      cbn. split; [reflexivity | split; congruence].
    + destruct (params_of request_data) eqn:Hp;
        first [ rewrite (handle_tools_call api now client_id request_data _ st
                           Hm Hp)
              | rewrite (handle_tools_call_malformed api now client_id
                           request_data st Hm)
                  by (rewrite Hp; reflexivity) ];
        rewrite Hi; cbn; split; try reflexivity; split; congruence.
    + rewrite (handle_unknown_method api now client_id request_data st Hm), Hi.
      cbn. split; [reflexivity | split; congruence].
  - intros Hm.
    rewrite (handle_notification api now client_id request_data st Hm).
    repeat split.
Qed.

(** C6, as amended. For a peer with a session, a [tools/list] request adds
    one to the request counter of the session, and a [tools/call] request
    whose [params] member is absent or a JSON object adds one to the
    counter and appends one record of tool name, arguments and timestamp to
    the end of the history. *)
Theorem tracked_requests_are_counted (api : downstream)
  (now client_id : string) (request_data : dict) (st : server) (s : session) :
  client_sessions st !! client_id = Some s ->
  let h := handle_mcp_request api now client_id request_data st in
  (method_of request_data = JStr "tools/list" ->
   client_sessions (after h) !! client_id
   = Some {| connected_at := connected_at s;
             requests_count := requests_count s + 1;
             tools_called := tools_called s |}) /\
  (forall p,
      method_of request_data = JStr "tools/call" ->
      params_of request_data = JDict p ->
      client_sessions (after h) !! client_id
      = Some {| connected_at := connected_at s;
                requests_count := requests_count s + 1;
                tools_called :=
                  tools_called s
                  ++ [{| tool_name := default JNull (dict_get p "name");
                         arguments :=
                           default (JDict []) (dict_get p "arguments");
                         timestamp := now |}] |}).
Proof.
  intros Hs h. subst h. split.
  - intros Hm.
    rewrite (handle_tools_list api now client_id request_data st Hm), Hs.
    cbn [after client_sessions with_sessions]. apply lookup_insert_eq.
  - intros p Hm Hp.
    rewrite (handle_tools_call api now client_id request_data p st Hm Hp), Hs.
    cbn [after client_sessions with_sessions]. apply lookup_insert_eq.
Qed.

(** C7. Along every run of the server from its start, whatever the
    requests and whoever sends them, a session that exists stays, and its
    request counter never gets smaller. *)
Theorem request_counter_never_decreases (evs1 evs2 : list event)
  (peer : string) (s : session) :
  client_sessions (run startup evs1) !! peer = Some s ->
  exists s',
    client_sessions (run startup (evs1 ++ evs2)) !! peer = Some s' /\
    requests_count s <= requests_count s'.
Proof.
  intros Hs. rewrite run_app. apply counter_run; [|exact Hs].
  apply consistent_run, consistent_startup.
Qed.

(** C8. A [tools/list] request is always answered by the success envelope
    around the whole catalog [TOOLS], unchanged; a second [tools/list] of
    the same peer, whatever was handled in between, returns the same
    catalog. *)
Theorem tools_list_returns_the_catalog (api1 api2 : downstream)
  (now1 now2 client_id : string) (request1 request2 : dict)
  (evs : list event) (st : server) :
  method_of request1 = JStr "tools/list" ->
  method_of request2 = JStr "tools/list" ->
  let first := handle_mcp_request api1 now1 client_id request1 st in
  let second :=
    handle_mcp_request api2 now2 client_id request2 (run (after first) evs) in
  response first = success_tools (id_of request1) /\
  calls first = [] /\
  member "result" (response first) = Some (JDict [("tools", JList TOOLS)]) /\
  member "result" (response second) = member "result" (response first).
Proof.
  intros Hm1 Hm2 first second. subst first second.
  rewrite (handle_tools_list api2 now2 client_id request2 _ Hm2).
  rewrite (handle_tools_list api1 now1 client_id request1 st Hm1).
  repeat split.
Qed.

(** C9. [add_number] called with the arguments {number: 42}, the business
    API answering {"result": 43} as [adder] does, yields the text
    "Result: 42 + 1 = 43", which contains "42 + 1 = 43"; on the stdio
    server too. *)
Theorem add_number_round_trip (api : downstream) (now client_id : string)
  (request_data p : dict) (st : server) :
  method_of request_data = JStr "tools/call" ->
  params_of request_data = JDict p ->
  dict_get p "name" = Some (JStr "add_number") ->
  dict_get p "arguments" = Some (JDict [("number", JInt 42)]) ->
  api adder_call = Replied (JDict [("result", JInt 43)]) ->
  let h := handle_mcp_request api now client_id request_data st in
  exists text,
    response h = success_text (id_of request_data) text /\
    text = "Result: 42 + 1 = 43" /\
    contains "42 + 1 = 43" text = true /\
    calls h = [adder_call] /\
    handle_call_tool api (JStr "add_number") (JDict [("number", JInt 42)])
    = ([{| type := "text"; text := text |}], [adder_call]) /\
    adder 42 = JDict [("result", JInt 43)].
Proof.
  intros Hm Hp Hname Hargs Hapi h. subst h.
  rewrite (handle_tools_call api now client_id request_data p st Hm Hp).
  rewrite Hname, Hargs. cbn [response calls default from_option id].
  rewrite handle_call_tool_agrees.
  assert (Hcall : call_tool api (JStr "add_number")
                    (JDict [("number", JInt 42)])
                  = ("Result: 42 + 1 = 43", [adder_call])).
  { unfold call_tool, call_tool_try, add_number, request.
    change (urljoin BUSINESS_SERVER_URL "/adder") with (url adder_call).
    cbn [is_str String.eqb Ascii.eqb Bool.eqb py_getitem dict_get gw_lift
         gw_bind].
    change {| verb := POST; url := url adder_call;
              payload := JDict [("number", JInt 42)] |} with adder_call.
    rewrite Hapi. reflexivity. }
  rewrite Hcall. eexists. repeat split.
Qed.

(** C10. A [tools/list] or [tools/call] request of a peer that never sent
    [initialize] is handled as any other: the answer and the downstream
    calls do not depend on the registries, the catalog is returned, the
    tool is called; and the registries, with every counter and every
    history in them, are left exactly as they were. *)
Theorem uninitialized_peer_is_served_without_session (api : downstream)
  (now client_id : string) (evs : list event) (request_data : dict) :
  (forall ev, ev ∈ evs -> ev_client ev = client_id ->
              method_of (ev_request ev) <> JStr "initialize") ->
  method_of request_data = JStr "tools/list" \/
  method_of request_data = JStr "tools/call" ->
  let st := run startup evs in
  let h := handle_mcp_request api now client_id request_data st in
  after h = st /\
  (forall st',
      response (handle_mcp_request api now client_id request_data st')
      = response h /\
      calls (handle_mcp_request api now client_id request_data st')
      = calls h) /\
  (method_of request_data = JStr "tools/list" ->
   response h = success_tools (id_of request_data)) /\
  (forall p,
      method_of request_data = JStr "tools/call" ->
      params_of request_data = JDict p ->
      let name := default JNull (dict_get p "name") in
      let args := default (JDict []) (dict_get p "arguments") in
      response h = success_text (id_of request_data)
                                (call_tool api name args).1 /\
      calls h = (call_tool api name args).2).
Proof.
  intros Hnever Hmethod st h. subst h.
  assert (Hnone : client_sessions st !! client_id = None)
    by (apply never_initialized; [apply lookup_empty | exact Hnever]).
  split; [|split; [|split]].
  - apply no_session_opened; [|exact Hnone].
    destruct Hmethod as [-> | ->]; discriminate.
  - intros st'. destruct Hmethod as [Hm|Hm].
    + rewrite !(handle_tools_list api now client_id request_data _ Hm).
      split; reflexivity.
    + destruct (params_of request_data) eqn:Hp;
        first [ rewrite !(handle_tools_call api now client_id request_data _ _
                            Hm Hp)
              | rewrite !(handle_tools_call_malformed api now client_id
                            request_data _ Hm)
                  by (rewrite Hp; reflexivity) ];
        split; reflexivity.
  - intros Hm.
    rewrite (handle_tools_list api now client_id request_data _ Hm).
    reflexivity.
  - intros p Hm Hp name args.
    rewrite (handle_tools_call api now client_id request_data p _ Hm Hp).
    split; reflexivity.
Qed.

End MoreClaims.

(** ** The claims at work

    Every property above that has a premise, applied to a request of the
    test client, and the requests at which the unamended claims break. *)

Ltac not_listed :=
  let x := fresh in
  let Hin := fresh in
  let Heq := fresh in
  intros x Hin Heq; apply list_elem_of_In in Hin; simpl in Hin;
  vm_compute in Heq;
  repeat (destruct Hin as [Hin|Hin]; [subst x; discriminate Heq|]);
  exact Hin.

Lemma tools_call_surfaces_as_text_witness :
  response (handle_mcp_request (rt := example_runtime) unreachable_api noon
              peer_a add_request startup)
  = success_text (JInt 4)
      "Error executing add_number: All connection attempts failed".
Proof.
  refine (proj2 (proj2 (tools_call_surfaces_as_text (rt := example_runtime)
            unreachable_api noon peer_a add_request
            [("name", JStr "add_number");
             ("arguments", JDict [("number", JInt 42)])]
            startup eq_refl eq_refl))
          "add_number" adder_call "All connection attempts failed"
          eq_refl _ _ eq_refl).
  - apply list_elem_of_In. simpl. tauto.
  - vm_compute. left.
Defined.

(** Positional parameters: the dispatcher answers a [tools/call] with the
    error envelope, and with no text block. *)
Lemma positional_tools_call_is_rpc_error :
  method_of positional_request = JStr "tools/call" /\
  let h := handle_mcp_request (rt := example_runtime) unreachable_api noon
             peer_a positional_request startup in
  response h
  = internal_error (JInt 7) "'list' object has no attribute 'get'" /\
  member "result" (response h) = None /\
  (forall request_id text, response h <> success_text request_id text).
Proof.
  split; [reflexivity|]. cbv zeta.
  split; [reflexivity|]. split; [reflexivity|].
  intros request_id text Heq. vm_compute in Heq. discriminate Heq.
Qed.

Lemma unknown_tool_is_named_and_not_forwarded_witness :
  let h := handle_mcp_request (rt := example_runtime) unreachable_api noon
             peer_a subtract_request startup in
  response h = success_text (JInt 6) "Unknown tool: subtract_number" /\
  calls h = [].
Proof.
  destruct (unknown_tool_is_named_and_not_forwarded (rt := example_runtime)
              unreachable_api noon peer_a subtract_request
              [("name", JStr "subtract_number");
               ("arguments", JDict [("number", JInt 42)])]
              startup eq_refl eq_refl) as (Hresponse & Hcalls & _).
  - not_listed.
  - split; [exact Hresponse | exact Hcalls].
Defined.

Lemma missing_required_argument_is_reported_witness :
  let h := handle_mcp_request (rt := example_runtime) unreachable_api noon
             peer_a add_nothing_request startup in
  response h = success_text (JInt 5) "Error executing add_number: 'number'" /\
  calls h = [].
Proof.
  destruct (missing_required_argument_is_reported (rt := example_runtime)
              unreachable_api noon peer_a add_nothing_request
              [("name", JStr "add_number"); ("arguments", JDict [])] []
              (tool "add_number"
                 "Add 1 to a given number using the business server"
                 [("number", prop "integer" "The number to add 1 to")]
                 ["number"])
              startup eq_refl eq_refl eq_refl eq_refl)
    as (field & Hin & _ & Hresponse & Hcalls & _).
  - exists "number". split; [|reflexivity].
    apply list_elem_of_In. simpl. tauto.
  - apply list_elem_of_In in Hin. simpl in Hin.
    destruct Hin as [Hin|[]]. injection Hin as <-.
    split; [exact Hresponse | exact Hcalls].
Defined.

Lemma unknown_method_is_internal_error_witness :
  response (handle_mcp_request (rt := example_runtime) unreachable_api noon
              peer_a ping_request startup)
  = internal_error (JInt 9) "400: Unknown method: ping".
Proof.
  refine (proj1 (unknown_method_is_internal_error (rt := example_runtime)
                   unreachable_api noon peer_a ping_request startup _)).
  not_listed.
Defined.

Lemma responses_echo_the_request_id_witness :
  member "id" (response (handle_mcp_request (rt := example_runtime)
                           unreachable_api noon peer_a tools_request startup))
  = Some (JInt 2).
Proof.
  refine (proj1 (proj1 (responses_echo_the_request_id (rt := example_runtime)
                          unreachable_api noon peer_a tools_request startup)
                   (JInt 2) eq_refl _)).
  discriminate.
Defined.

(** The notification of the client, sent with an id, is answered without
    the id. *)
Lemma initialized_with_id_is_answered_without_id :
  dict_get initialized_with_id "id" = Some (JInt 8) /\
  let h := handle_mcp_request (rt := example_runtime) unreachable_api noon
             peer_a initialized_with_id startup in
  response h = JDict [("jsonrpc", JStr "2.0")] /\
  member "id" (response h) = None /\
  member "id" (response h) <> Some (JInt 8).
Proof.
  split; [reflexivity|]. cbv zeta.
  split; [reflexivity|]. split; [reflexivity|]. discriminate.
Qed.

Lemma tracked_requests_are_counted_witness :
  client_sessions
    (after (handle_mcp_request (rt := example_runtime) unreachable_api noon
              peer_a add_request
              (run (rt := example_runtime) startup
                 [sent unreachable_api init_request]))) !! peer_a
  = Some {| connected_at := noon;
            requests_count := 2;
            tools_called :=
              [{| tool_name := JStr "add_number";
                  arguments := JDict [("number", JInt 42)];
                  timestamp := noon |}] |}.
Proof.
  refine (proj2 (tracked_requests_are_counted (rt := example_runtime)
                   unreachable_api noon peer_a add_request
                   (run (rt := example_runtime) startup
                      [sent unreachable_api init_request])
                   {| connected_at := noon; requests_count := 1;
                      tools_called := [] |} _)
            [("name", JStr "add_number");
             ("arguments", JDict [("number", JInt 42)])] eq_refl eq_refl).
  vm_compute. reflexivity.
Defined.

(** After [initialize], a [tools/call] with positional parameters leaves
    the counter at 1 and the history empty. *)
Lemma positional_tools_call_is_not_counted :
  let st := run (rt := example_runtime) startup
              [sent unreachable_api init_request] in
  let h := handle_mcp_request (rt := example_runtime) unreachable_api noon
             peer_a positional_request st in
  let s := {| connected_at := noon; requests_count := 1;
              tools_called := [] |} in
  method_of positional_request = JStr "tools/call" /\
  client_sessions st !! peer_a = Some s /\
  client_sessions (after h) !! peer_a = Some s /\
  requests_count s <> requests_count s + 1.
Proof.
  cbv zeta. split; [reflexivity|].
  split; [vm_compute; reflexivity|].
  split; [vm_compute; reflexivity|].
  cbn. lia.
Qed.

Lemma request_counter_never_decreases_witness :
  exists s',
    client_sessions
      (run (rt := example_runtime) startup
         ([sent unreachable_api init_request]
          ++ [sent unreachable_api tools_request;
              sent unreachable_api add_request])) !! peer_a = Some s' /\
    1 <= requests_count s'.
Proof.
  refine (request_counter_never_decreases (rt := example_runtime)
            [sent unreachable_api init_request]
            [sent unreachable_api tools_request;
             sent unreachable_api add_request]
            peer_a
            {| connected_at := noon; requests_count := 1;
               tools_called := [] |} _).
  vm_compute. reflexivity.
Defined.

Lemma tools_list_returns_the_catalog_witness :
  member "result"
    (response
       (handle_mcp_request (rt := example_runtime) unreachable_api noon peer_a
          tools_request
          (run (rt := example_runtime)
             (after (handle_mcp_request (rt := example_runtime)
                       (stub_api (adder 42)) noon peer_a tools_request
                       startup))
             [sent unreachable_api joke_request])))
  = Some (JDict [("tools", JList TOOLS)]).
Proof.
  destruct (tools_list_returns_the_catalog (rt := example_runtime)
              (stub_api (adder 42)) unreachable_api noon noon peer_a
              tools_request tools_request
              [sent unreachable_api joke_request] startup eq_refl eq_refl)
    as (_ & _ & Hfirst & Hsecond).
  exact (eq_trans Hsecond Hfirst).
Defined.

Lemma add_number_round_trip_witness :
  exists text,
    response (handle_mcp_request (rt := example_runtime)
                (stub_api (adder 42)) noon peer_a add_request startup)
    = success_text (JInt 4) text /\
    contains "42 + 1 = 43" text = true.
Proof.
  destruct (add_number_round_trip (rt := example_runtime)
              (stub_api (adder 42)) noon peer_a add_request
              [("name", JStr "add_number");
               ("arguments", JDict [("number", JInt 42)])]
              startup eq_refl eq_refl eq_refl eq_refl eq_refl)
    as (text & Hresponse & _ & Hcontains & _).
  exists text. split; [exact Hresponse | exact Hcontains].
Defined.

Lemma uninitialized_peer_is_served_without_session_witness :
  after (handle_mcp_request (rt := example_runtime) unreachable_api noon
           peer_b tools_request
           (run (rt := example_runtime) startup
              [sent unreachable_api init_request]))
  = run (rt := example_runtime) startup [sent unreachable_api init_request].
Proof.
  refine (proj1 (uninitialized_peer_is_served_without_session
                   (rt := example_runtime) unreachable_api noon peer_b
                   [sent unreachable_api init_request] tools_request
                   _ (or_introl eq_refl))).
  intros ev Hin Hclient. apply list_elem_of_singleton in Hin. subst ev.
  vm_compute in Hclient. discriminate Hclient.
Defined.

(** * More of the bridge *)

(** Splits on the branch the dispatcher takes for a request and rewrites
    the call with the equation of that branch. *)
Ltac dispatch_request api now client_id request_data st :=
  let Hm := fresh "Hm" in
  let Hp := fresh "Hp" in
  destruct (method_cases (method_of request_data))
    as [Hm|[Hm|[Hm|[Hm|Hm]]]];
  [ destruct (handle_initialize api now client_id request_data st Hm)
      as [-> _]
  | rewrite (handle_notification api now client_id request_data st Hm)
  | rewrite (handle_tools_list api now client_id request_data st Hm)
  | destruct (params_of request_data) eqn:Hp;
    first [ rewrite (handle_tools_call api now client_id request_data _ st
                       Hm Hp)
          | rewrite (handle_tools_call_malformed api now client_id
                       request_data st Hm)
              by (rewrite Hp; reflexivity) ]
  | rewrite (handle_unknown_method api now client_id request_data st Hm) ];
  cbn [after response calls].

(** ** Sessions along a run *)

Section SessionFacts.
Context {rt : PyRuntime}.

Lemma by_peer_true (peer : string) (ev : event) :
  by_peer peer ev = true <-> ev_client ev = peer.
Proof. unfold by_peer. apply String.eqb_eq. Qed.

Lemma by_peer_false (peer : string) (ev : event) :
  by_peer peer ev = false <-> ev_client ev <> peer.
Proof. unfold by_peer. apply String.eqb_neq. Qed.

(** What one event makes of an open session of [peer]. *)
Lemma step_open_session (st : server) (ev : event) (peer : string)
  (s : session) :
  consistent st ->
  client_sessions st !! peer = Some s ->
  client_sessions (step st ev) !! peer
  = Some {| connected_at := connected_at s;
            requests_count :=
              requests_count s
              + (if by_peer peer ev && counted ev then 1 else 0);
            tools_called :=
              tools_called s
              ++ (if by_peer peer ev
                  then omap recorded [ev] else []) |}.
Proof.
  intros Hc Hs. unfold step, handle.
  destruct (by_peer peer ev) eqn:Hby.
  - apply by_peer_true in Hby. subst peer.
    unfold counted, recorded, is_initialize. cbn [omap list_omap andb].
    destruct ev as [api now client_id request_data].
    cbn [ev_api ev_now ev_client ev_request] in *.
    dispatch_request api now client_id request_data st;
      try rewrite decide_True by (apply Hc; eauto);
      rewrite ?Hs; cbn [client_sessions with_sessions];
      rewrite ?lookup_insert_eq, ?Hs;
      first [ rewrite Hm; decide_literals
            | rewrite !is_str_false
                by (apply Hm; apply list_elem_of_In; simpl; tauto) ];
      rewrite ?Hp; cbn [orb andb is_dict app];
      unfold called, record_call, count_request; cbn;
      rewrite ?app_nil_r, ?Z.add_0_r; destruct s; reflexivity.
  - apply by_peer_false in Hby.
    rewrite other_sessions_kept by congruence.
    cbn [andb]. rewrite Hs, app_nil_r, Z.add_0_r. destruct s; reflexivity.
Qed.

Lemma filter_counted_cons (peer : string) (ev : event) (evs : list event) :
  Z.of_nat (length (List.filter counted
                      (List.filter (by_peer peer) (ev :: evs))))
  = (if by_peer peer ev && counted ev then 1 else 0)
    + Z.of_nat (length (List.filter counted
                          (List.filter (by_peer peer) evs))).
Proof.
  cbn [List.filter]. destruct (by_peer peer ev); cbn [andb List.filter];
    [destruct (counted ev); cbn [length]; lia | lia].
Qed.

Lemma omap_recorded_cons (peer : string) (ev : event) (evs : list event) :
  omap recorded (List.filter (by_peer peer) (ev :: evs))
  = (if by_peer peer ev then omap recorded [ev] else [])
    ++ omap recorded (List.filter (by_peer peer) evs).
Proof.
  cbn [List.filter]. destruct (by_peer peer ev); [|reflexivity].
  cbn [omap list_omap]. destruct (recorded ev); reflexivity.
Qed.

(** What a run makes of an open session of [peer]. *)
Lemma run_open_session (evs : list event) (st : server) (peer : string)
  (s : session) :
  consistent st ->
  client_sessions st !! peer = Some s ->
  let mine := List.filter (by_peer peer) evs in
  client_sessions (run st evs) !! peer
  = Some {| connected_at := connected_at s;
            requests_count :=
              requests_count s + Z.of_nat (length (List.filter counted mine));
            tools_called := tools_called s ++ omap recorded mine |}.
Proof.
  revert st s. induction evs as [|ev evs IH]; intros st s Hc Hs mine.
  - cbn. rewrite Hs, app_nil_r, Z.add_0_r. destruct s; reflexivity.
  - subst mine. cbn [run fold_left].
    change (fold_left step evs (step st ev)) with (run (step st ev) evs).
    rewrite (IH (step st ev) _ (consistent_kept _ _ _ _ _ Hc)
               (step_open_session st ev peer s Hc Hs)).
    cbn [connected_at requests_count tools_called].
    rewrite filter_counted_cons, omap_recorded_cons.
    f_equal. f_equal; [lia | rewrite app_assoc; reflexivity].
Qed.

(** The first [initialize] of a peer without a session opens it. *)
Lemma step_opens_session (st : server) (ev : event) (peer : string) :
  consistent st ->
  client_sessions st !! peer = None ->
  client_sessions (step st ev) !! peer
  = if by_peer peer ev && is_initialize ev
    then Some {| connected_at := ev_now ev; requests_count := 1;
                 tools_called := [] |}
    else None.
Proof.
  intros Hc Hnone. unfold step, handle, is_initialize.
  destruct (by_peer peer ev) eqn:Hby; cbn [andb].
  - apply by_peer_true in Hby. subst peer.
    destruct (is_str (method_of (ev_request ev)) "initialize") eqn:Hm.
    + apply is_str_true in Hm.
      destruct (handle_initialize (ev_api ev) (ev_now ev) (ev_client ev)
                  (ev_request ev) st Hm) as [-> _].
      rewrite decide_False
        by (intros Hin; apply Hc in Hin; destruct Hin as [? Hin];
            congruence).
      cbn [client_sessions]. rewrite lookup_insert_eq.
      cbn [client_sessions with_sessions]. rewrite lookup_insert_eq.
      reflexivity.
    + rewrite no_session_opened; [exact Hnone | | exact Hnone].
      intros Heq. rewrite Heq in Hm. discriminate Hm.
  - apply by_peer_false in Hby.
    rewrite other_sessions_kept by congruence. exact Hnone.
Qed.

Lemma run_closed_form (evs : list event) (st : server) (peer : string) :
  consistent st ->
  client_sessions st !! peer = None ->
  client_sessions (run st evs) !! peer = session_of peer evs.
Proof.
  revert st. induction evs as [|ev evs IH]; intros st Hc Hnone;
    [exact Hnone|].
  cbn [run fold_left].
  change (fold_left step evs (step st ev)) with (run (step st ev) evs).
  unfold session_of. cbn [since_initialize].
  pose proof (step_opens_session st ev peer Hc Hnone) as Hstep.
  destruct (by_peer peer ev && is_initialize ev).
  - rewrite (run_open_session evs (step st ev) peer _
               (consistent_kept _ _ _ _ _ Hc) Hstep).
    reflexivity.
  - apply IH; [apply consistent_kept; exact Hc | exact Hstep].
Qed.

Lemma since_initialize_Some (peer : string) (evs : list event) :
  is_Some (since_initialize peer evs) <->
  exists ev, ev ∈ evs /\ ev_client ev = peer /\
             method_of (ev_request ev) = JStr "initialize".
Proof.
  induction evs as [|ev evs IH]; cbn [since_initialize].
  - split; [intros [? ?]; discriminate|].
    intros (ev & Hin & _). apply elem_of_nil in Hin. contradiction.
  - destruct (by_peer peer ev && is_initialize ev) eqn:Hhead.
    + split; [intros _|eauto].
      apply andb_true_iff in Hhead as [Hby Hinit].
      exists ev. split; [left|]. split; [apply by_peer_true; exact Hby|].
      apply is_str_true. exact Hinit.
    + rewrite IH. split.
      * intros (ev' & Hin & Hrest). exists ev'. split; [right|]; assumption.
      * intros (ev' & Hin & Hclient & Hm).
        apply elem_of_cons in Hin as [->|Hin]; [|eauto].
        apply andb_false_iff in Hhead as [Hby|Hinit].
        -- apply by_peer_false in Hby. contradiction.
        -- unfold is_initialize in Hinit. rewrite Hm in Hinit.
           discriminate Hinit.
Qed.

Lemma since_initialize_filter (peer : string) (evs : list event) :
  since_initialize peer (List.filter (by_peer peer) evs)
  = match since_initialize peer evs with
    | Some (opening, rest) =>
        Some (opening, List.filter (by_peer peer) rest)
    | None => None
    end.
Proof.
  induction evs as [|ev evs IH]; [reflexivity|].
  cbn [List.filter since_initialize].
  destruct (by_peer peer ev) eqn:Hby; cbn [andb since_initialize].
  - rewrite Hby. cbn [andb]. destruct (is_initialize ev); [reflexivity|].
    exact IH.
  - exact IH.
Qed.

Lemma filter_by_peer_idem (peer : string) (evs : list event) :
  List.filter (by_peer peer) (List.filter (by_peer peer) evs)
  = List.filter (by_peer peer) evs.
Proof.
  induction evs as [|ev evs IH]; [reflexivity|].
  cbn [List.filter]. destruct (by_peer peer ev) eqn:Hby; [|exact IH].
  cbn [List.filter]. rewrite Hby, IH. reflexivity.
Qed.

Lemma recorded_is_counted (ev : event) (r : invocation) :
  recorded ev = Some r -> counted ev = true.
Proof.
  unfold recorded, counted.
  destruct (is_str (method_of (ev_request ev)) "tools/call");
    [|discriminate].
  destruct (params_of (ev_request ev)); try discriminate.
  intros _. cbn [is_dict andb]. apply orb_true_r.
Qed.

Lemma recorded_counted (evs : list event) :
  (length (omap recorded evs) <= length (List.filter counted evs))%nat.
Proof.
  induction evs as [|ev evs IH]; [reflexivity|].
  assert (Hcons : omap recorded (ev :: evs)
                  = match recorded ev with
                    | Some r => r :: omap recorded evs
                    | None => omap recorded evs
                    end) by reflexivity.
  rewrite Hcons. cbn [List.filter].
  destruct (recorded ev) eqn:Hr.
  - rewrite (recorded_is_counted ev _ Hr). cbn [length]. lia.
  - destruct (counted ev); cbn [length]; lia.
Qed.

Lemma consistent_sizes (st : server) :
  consistent st ->
  size (connected_clients st) = size (client_sessions st).
Proof.
  intros Hc. rewrite <- size_dom. f_equal.
  apply set_eq. intros peer. rewrite elem_of_dom. apply Hc.
Qed.

End SessionFacts.

(** ** What the registries hold after a run *)

Section RegistryProperties.
Context {rt : PyRuntime}.

(** X1. After any run from the start of the server, the session of a peer
    is the one opened by its first [initialize]: opened at the clock
    reading of that request, counting that request and every later
    [initialize], [tools/list] and [tools/call] with mapping parameters of
    the peer, and holding the records of those [tools/call] in the order
    they came. A peer that sent no [initialize] has no session. *)
Theorem session_closed_form (evs : list event) (peer : string) :
  client_sessions (run startup evs) !! peer = session_of peer evs.
Proof.
  apply run_closed_form; [apply consistent_startup | apply lookup_empty].
Qed.

(** X2. The connected peers are exactly the peers that sent an
    [initialize], answered with success or not. *)
Theorem connected_iff_initialized (evs : list event) (peer : string) :
  peer ∈ connected_clients (run startup evs) <->
  exists ev, ev ∈ evs /\ ev_client ev = peer /\
             method_of (ev_request ev) = JStr "initialize".
Proof.
  rewrite (consistent_run evs startup consistent_startup peer).
  rewrite (run_closed_form evs startup peer consistent_startup
             (lookup_empty _)).
  rewrite <- since_initialize_Some. unfold session_of.
  destruct (since_initialize peer evs) as [[opening rest]|].
  - split; eauto.
  - split; intros [? ?]; discriminate.
Qed.

(** X3. The session of a peer depends on the requests of that peer only:
    dropping the requests of all other peers from a run leaves it as it
    is. *)
Theorem session_depends_on_own_requests (evs : list event) (peer : string) :
  client_sessions (run startup evs) !! peer
  = client_sessions (run startup (List.filter (by_peer peer) evs)) !! peer.
Proof.
  rewrite !(fun l => run_closed_form l startup peer consistent_startup
                       (lookup_empty _)).
  unfold session_of. rewrite since_initialize_filter.
  destruct (since_initialize peer evs) as [[opening rest]|]; [|reflexivity].
  rewrite filter_by_peer_idem. reflexivity.
Qed.

(** X4. A session only grows: along a run its opening time stays, its
    counter does not get smaller, and its history keeps every record it
    had, in place, new records coming at the end. *)
Theorem session_history_is_append_only (evs1 evs2 : list event)
  (peer : string) (s : session) :
  client_sessions (run startup evs1) !! peer = Some s ->
  exists s',
    client_sessions (run startup (evs1 ++ evs2)) !! peer = Some s' /\
    continues s s'.
Proof.
  intros Hs. rewrite run_app.
  rewrite (run_open_session evs2 (run startup evs1) peer s
             (consistent_run evs1 startup consistent_startup) Hs).
  eexists. split; [reflexivity|].
  unfold continues. cbn [connected_at requests_count tools_called].
  split; [reflexivity|]. split; [lia|]. apply prefix_app_r. reflexivity.
Qed.

(** X5. The counter of a session is larger than the length of its
    history: the opening [initialize] is counted and not recorded, and
    every recorded call is counted. *)
Theorem counter_exceeds_history (evs : list event) (peer : string)
  (s : session) :
  client_sessions (run startup evs) !! peer = Some s ->
  Z.of_nat (length (tools_called s)) < requests_count s.
Proof.
  rewrite (run_closed_form evs startup peer consistent_startup
             (lookup_empty _)).
  unfold session_of.
  destruct (since_initialize peer evs) as [[opening rest]|];
    [|discriminate].
  intros [= <-]. cbn [tools_called requests_count].
  pose proof (recorded_counted (List.filter (by_peer peer) rest)). lia.
Qed.

(** X6. The statistics endpoint reports as many connected clients as it
    lists sessions, after any run. *)
Theorem stats_count_the_sessions (evs : list event) :
  let stats := get_server_stats (run startup evs) in
  stats_connected_clients stats = size (client_details stats) /\
  total_tools stats = length REGISTERED.
Proof.
  cbv zeta. unfold get_server_stats.
  cbn [stats_connected_clients client_details total_tools].
  split; [|reflexivity].
  apply consistent_sizes, consistent_run, consistent_startup.
Qed.

(** X7. A request makes the dispatcher issue at most one downstream call,
    and none unless its method is [tools/call]. *)
Theorem downstream_calls_only_for_tools_call (api : downstream)
  (now client_id : string) (request_data : dict) (st : server) :
  let h := handle_mcp_request api now client_id request_data st in
  (length (calls h) <= 1)%nat /\
  (method_of request_data <> JStr "tools/call" -> calls h = []).
Proof.
  cbv zeta.
  destruct (method_cases (method_of request_data))
    as [Hm|[Hm|[Hm|[Hm|Hm]]]].
  - destruct (handle_initialize api now client_id request_data st Hm)
      as [_ ->]. split; [cbn; lia | reflexivity].
  - rewrite (handle_notification api now client_id request_data st Hm).
    split; [cbn; lia | reflexivity].
  - rewrite (handle_tools_list api now client_id request_data st Hm).
    split; [cbn; lia | reflexivity].
  - split; [|congruence].
    destruct (params_of request_data) eqn:Hp;
      first [ rewrite (handle_tools_call api now client_id request_data _ st
                         Hm Hp)
            | rewrite (handle_tools_call_malformed api now client_id
                         request_data st Hm)
                by (rewrite Hp; reflexivity) ];
      cbn [calls]; [cbn; lia ..|].
    apply call_tool_at_most_one_call.
  - rewrite (handle_unknown_method api now client_id request_data st Hm).
    split; [cbn; lia | reflexivity].
Qed.

(** X8. An [initialize] of a peer without a session opens the session and
    connects the peer whatever its parameters are: when [params] is not a
    mapping the answer is the error envelope, and the session is there
    all the same, with the request counted. *)
Theorem failing_initialize_opens_the_session (api : downstream)
  (now client_id : string) (request_data : dict) (st : server) :
  consistent st ->
  client_sessions st !! client_id = None ->
  method_of request_data = JStr "initialize" ->
  let h := handle_mcp_request api now client_id request_data st in
  client_sessions (after h) !! client_id
  = Some {| connected_at := now; requests_count := 1; tools_called := [] |} /\
  client_id ∈ connected_clients (after h) /\
  (is_dict (params_of request_data) = false ->
   response h
   = internal_error (id_of request_data)
       ("'" +:+ type_name (params_of request_data)
        +:+ "' object has no attribute 'get'")).
Proof.
  intros Hc Hnone Hm h. subst h.
  assert (Hnew : client_id ∉ connected_clients st)
    by (intros Hin; apply Hc in Hin; destruct Hin as [? Hin]; congruence).
  split; [|split].
  - destruct (handle_initialize api now client_id request_data st Hm)
      as [-> _].
    rewrite decide_False by exact Hnew.
    cbn [client_sessions]. rewrite lookup_insert_eq.
    cbn [client_sessions with_sessions]. rewrite lookup_insert_eq.
    reflexivity.
  - destruct (handle_initialize api now client_id request_data st Hm)
      as [-> _].
    rewrite decide_False by exact Hnew.
    cbn [client_sessions]. rewrite lookup_insert_eq.
    cbn [connected_clients with_sessions].
    apply elem_of_union_l, elem_of_singleton. reflexivity.
  - intros Hp. unfold handle_mcp_request, handle_try. rewrite Hm.
    decide_literals. cbv zeta.
    rewrite decide_False by exact Hnew.
    cbn [client_sessions]. rewrite lookup_insert_eq.
    destruct (params_of request_data); try discriminate; reflexivity.
Qed.

(** X9. An [initialize] whose [params] is absent or a mapping, with
    [clientInfo] absent or a mapping, is answered with the server
    descriptor under the id of the request; sent again by a peer that has
    a session, it adds one to the counter and keeps the opening time and
    the history. *)
Theorem initialize_handshake (api : downstream) (now client_id : string)
  (request_data p client_info : dict) (st : server) :
  consistent st ->
  method_of request_data = JStr "initialize" ->
  params_of request_data = JDict p ->
  default (JDict []) (dict_get p "clientInfo") = JDict client_info ->
  let h := handle_mcp_request api now client_id request_data st in
  response h
  = JDict [("jsonrpc", JStr "2.0");
           ("id", id_of request_data);
           ("result", SERVER_INFO)] /\
  (forall s,
      client_sessions st !! client_id = Some s ->
      client_sessions (after h) !! client_id
      = Some {| connected_at := connected_at s;
                requests_count := requests_count s + 1;
                tools_called := tools_called s |}).
Proof.
  intros Hc Hm Hp Hci h. subst h. split.
  - unfold handle_mcp_request, handle_try. rewrite Hm, Hp.
    decide_literals. cbv zeta.
    assert (Hget : py_get (JDict p) "clientInfo" (JDict [])
                   = Ok (JDict client_info)).
    { unfold py_get. destruct (dict_get p "clientInfo");
        cbn [default from_option id] in Hci; congruence. }
    rewrite Hget. cbn [res_bind py_get].
    destruct (decide (client_id ∈ connected_clients st)) as [Hin|Hnew].
    + destruct (proj1 (Hc client_id) Hin) as [s ->].
      destruct (dict_get client_info "name"),
        (dict_get client_info "version"); reflexivity.
    + cbn [client_sessions]. rewrite lookup_insert_eq.
      destruct (dict_get client_info "name"),
        (dict_get client_info "version"); reflexivity.
  - intros s Hs.
    destruct (handle_initialize api now client_id request_data st Hm)
      as [-> _].
    rewrite decide_True by (apply Hc; eauto). rewrite Hs.
    cbn [client_sessions with_sessions]. apply lookup_insert_eq.
Qed.

End RegistryProperties.

(** ** More of the gateway *)

Section GatewayProperties.
Context {rt : PyRuntime}.
Variable api : downstream.

Ltac tool_branches name :=
  unfold handle_call_tool, handle_call_tool_try, call_tool, call_tool_try;
  destruct (is_str name "register_agent") eqn:?;
  [| destruct (is_str name "report_status") eqn:?;
     [| destruct (is_str name "get_tasks") eqn:?;
        [| destruct (is_str name "add_number") eqn:?;
           [| destruct (is_str name "get_joke") eqn:? ]]]];
  unfold register_agent, report_status, get_tasks, add_number, get_joke,
    request.

(** Walks to the downstream call: every subscript and [get] of the
    arguments, then the reply. *)
Ltac walk_to_reply :=
  repeat first
    [ progress (cbn [gw_bind gw_lift gw_ret fst snd app] in * )
    | match goal with
      | |- context [py_getitem ?a ?k] => destruct (py_getitem a k) eqn:?
      | |- context [py_get ?a ?k ?d] =>
          lazymatch goal with
          | |- context [api _] => destruct (py_get a k d) eqn:?
          end
      | |- context [api ?c] => destruct (api c) eqn:?
      end ].

Ltac walk_all :=
  repeat first
    [ progress (cbn [gw_bind gw_lift gw_ret fst snd app] in * )
    | match goal with
      | |- context [py_getitem ?a ?k] => destruct (py_getitem a k) eqn:?
      | |- context [py_get ?a ?k ?d] => destruct (py_get a k d) eqn:?
      | |- context [api ?c] => destruct (api c) eqn:?
      end ].

(** The catalog entry of a name, tool by tool. *)
Ltac by_tool Hreg s :=
  unfold registered in Hreg; cbn [List.find TOOLS] in Hreg;
  repeat match type of Hreg with
         | (if is_str ?n s then _ else _) = _ =>
             let E := fresh "E" in
             destruct (is_str n s) eqn:E;
             [ apply is_str_true in E; cbv in E; injection E as <-;
               injection Hreg as <- |]
         end; try discriminate.

Lemma py_get_dict (d : dict) (k : string) (dflt : json) :
  py_get (JDict d) k dflt = Ok (default dflt (dict_get d k)).
Proof. unfold py_get. destruct (dict_get d k); reflexivity. Qed.

(** X10. The text of a tool call is never empty, whatever the tool, the
    arguments and the behaviour of the business API. *)
Theorem gateway_text_is_never_empty (name args : json) :
  (call_tool api name args).1 <> "".
Proof. tool_branches name; walk_all; cbn; discriminate. Qed.

(** X11. The stdio server and the HTTP server answer every tool call with
    the same text, in one text block, after the same downstream calls. *)
Theorem stdio_and_http_servers_agree (name args : json) :
  handle_call_tool api name args
  = ([{| type := "text"; text := (call_tool api name args).1 |}],
     (call_tool api name args).2).
Proof. apply handle_call_tool_agrees. Qed.


(** X13. When the business API answers the call of a tool with a body
    that is not a JSON object, the text is "Error executing <tool>:
    '<type>' object has no attribute 'get'". *)
Theorem reply_that_is_no_object_is_reported (name args body : json)
  (c : http_call) :
  c ∈ (call_tool api name args).2 ->
  api c = Replied body ->
  is_dict body = false ->
  (call_tool api name args).1
  = "Error executing " +:+ py_str name +:+ ": '" +:+ type_name body
    +:+ "' object has no attribute 'get'".
Proof.
  intros Hin Hreply Hbody. revert Hin.
  tool_branches name; walk_all; cbn [fst snd];
    intros Hin;
    try (apply elem_of_nil in Hin; contradiction);
    apply list_elem_of_singleton in Hin; subst c;
    match goal with
    | H : api _ = _ |- _ =>
        rewrite Hreply in H; first [discriminate H | injection H as <-]
    end;
    repeat match goal with
           | H : is_str _ _ = true |- _ => apply is_str_true in H; subst name
           end;
    destruct body; try discriminate Hbody;
    repeat match goal with
           | H : py_get ?b _ _ = _ |- _ =>
               assert_fails (is_var b); cbn in H;
               first [discriminate H | injection H as <-]
           end;
    reflexivity.
Qed.

(** X14. A tool with required fields called with arguments that are not
    a mapping issues no downstream call; the text carries the message of
    the [TypeError] the subscript raises. *)
Theorem arguments_that_are_no_mapping_are_reported (name entry args : json) :
  registered name = Some entry ->
  entry_required entry <> [] ->
  is_dict args = false ->
  call_tool api name args
  = ("Error executing " +:+ py_str name +:+ ": " +:+ subscript_error args,
     []).
Proof.
  intros Hreg Hreq Hargs.
  destruct name as [| | | |s| |]; try discriminate.
  by_tool Hreg s; try (exfalso; apply Hreq; reflexivity);
    destruct args; try discriminate Hargs; reflexivity.
Qed.


(** X16. [get_joke] of the business server always sends both "setup" and
    "punchline", as [null] when the joke API left one out; so the
    gateway prints a missing part as "None", never as the empty default
    it holds for an absent key. *)
Theorem missing_joke_part_is_printed_as_None (data : dict) (body args : json) :
  Business.get_joke (Replied (JDict data)) = Ok body ->
  api joke_call = Replied body ->
  (call_tool api (JStr "get_joke") args).1
  = "Here's a joke for you:" +:+ nl +:+ nl +:+ "Setup: "
    +:+ py_str (default JNull (dict_get data "setup")) +:+ nl
    +:+ "Punchline: "
    +:+ py_str (default JNull (dict_get data "punchline")).
Proof.
  intros Hbody Hapi. unfold Business.get_joke in Hbody.
  cbn [py_get] in Hbody.
  unfold call_tool, call_tool_try, get_joke, request.
  cbn [is_str String.eqb Ascii.eqb Bool.eqb].
  change {| verb := GET; url := urljoin BUSINESS_SERVER_URL "/joke";
            payload := JNull |} with joke_call.
  rewrite Hapi.
  destruct (dict_get data "setup"), (dict_get data "punchline");
    cbn [res_bind] in Hbody; injection Hbody as <-; reflexivity.
Qed.

(** X17. [register_agent], the business API answering as its
    [register_agent] does, gives the text that ends with the id the
    business server drew. *)
Theorem registration_text_carries_the_id (uuid : string)
  (agent : Business.AgentRegistration) (agents : Business.store) (a : dict) :
  dict_get a "name" = Some (JStr (Business.name agent)) ->
  dict_get a "version" = Some (JStr (Business.version agent)) ->
  api {| verb := POST;
         url := "http://localhost:8000/register";
         payload := JDict [("name", JStr (Business.name agent));
                           ("version", JStr (Business.version agent))] |}
  = Replied (Business.register_agent uuid agent agents).1 ->
  (call_tool api (JStr "register_agent") (JDict a)).1
  = "Agent registered successfully. Agent ID: " +:+ uuid.
Proof.
  intros Hname Hversion Hapi.
  unfold call_tool, call_tool_try, register_agent, request.
  cbn [is_str String.eqb Ascii.eqb Bool.eqb py_getitem].
  rewrite Hname, Hversion. cbn [gw_lift gw_bind].
  change (urljoin BUSINESS_SERVER_URL "/register")
    with "http://localhost:8000/register".
  rewrite Hapi. reflexivity.
Qed.

End GatewayProperties.

(** ** The business server *)

Lemma register_all_keeps (regs : list (string * Business.AgentRegistration))
  (agents : Business.store) (uuid : string) :
  is_Some (agents !! uuid) ->
  is_Some (Business.register_all regs agents !! uuid).
Proof.
  revert agents. induction regs as [|[u r] regs IH]; intros agents Hin;
    [exact Hin|].
  cbn. apply IH. unfold Business.register_agent. cbn.
  apply lookup_insert_is_Some. destruct (decide (u = uuid)); [left|right];
    auto.
Qed.

Lemma register_all_adds_only (regs : list (string * Business.AgentRegistration))
  (agents : Business.store) (uuid : string) :
  agents !! uuid = None ->
  uuid ∉ regs.*1 ->
  Business.register_all regs agents !! uuid = None.
Proof.
  revert agents. induction regs as [|[u r] regs IH]; intros agents Hnone Hnot;
    [exact Hnone|].
  cbn in *. apply IH.
  - unfold Business.register_agent. cbn.
    rewrite lookup_insert_ne; [exact Hnone|].
    intros ->. apply Hnot. left.
  - intros Hin. apply Hnot. right. exact Hin.
Qed.

(** X18. Once an agent is registered, its status reports and its task
    requests are accepted, whatever is registered afterwards; every agent
    gets the same two tasks. *)
Theorem registered_agent_is_served (uuid : string)
  (agent : Business.AgentRegistration) (agents : Business.store)
  (regs : list (string * Business.AgentRegistration))
  (report : Business.StatusReport) :
  Business.agent_id report = uuid ->
  let agents' :=
    Business.register_all regs (Business.register_agent uuid agent agents).2 in
  Business.report_status report agents'
  = Ok (JDict [("message", JStr ("Status received for agent " +:+ uuid))]) /\
  Business.get_tasks uuid agents' = Ok (JDict [("tasks", Business.tasks)]).
Proof.
  intros Hid agents'.
  assert (Hin : is_Some (agents' !! uuid)).
  { apply register_all_keeps. unfold Business.register_agent. cbn.
    rewrite lookup_insert_eq. eauto. }
  destruct Hin as [r Hr].
  unfold Business.report_status, Business.get_tasks.
  rewrite Hid, Hr. split; reflexivity.
Qed.

(** X19. An id that was never handed out is turned down with status 404
    and "Agent not found", for a status report and for a task request,
    however many other agents are registered. *)
Theorem unknown_agent_is_turned_down
  (regs : list (string * Business.AgentRegistration))
  (report : Business.StatusReport) :
  Business.agent_id report ∉ regs.*1 ->
  let agents := Business.register_all regs ∅ in
  Business.report_status report agents
  = Raise (HTTPException 404 "Agent not found") /\
  Business.get_tasks (Business.agent_id report) agents
  = Raise (HTTPException 404 "Agent not found").
Proof.
  intros Hnot agents.
  assert (Hnone : agents !! Business.agent_id report = None)
    by (apply register_all_adds_only; [apply lookup_empty | exact Hnot]).
  unfold Business.report_status, Business.get_tasks.
  rewrite Hnone. split; reflexivity.
Qed.

(** ** The manager of the client *)

Section ManagerProperties.
Context {rt : PyRuntime} {pc : PyContainers}.

Lemma fresh_initialize_session (api : downstream) (now client_id : string)
  (request_data : dict) (st : server) :
  consistent st ->
  client_sessions st !! client_id = None ->
  method_of request_data = JStr "initialize" ->
  client_sessions
    (after (handle_mcp_request api now client_id request_data st))
  !! client_id
  = Some {| connected_at := now; requests_count := 1; tools_called := [] |}.
Proof.
  intros Hc Hnone Hm.
  destruct (handle_initialize api now client_id request_data st Hm)
    as [-> _].
  rewrite decide_False
    by (intros Hin; apply Hc in Hin; destruct Hin as [? Hin]; congruence).
  cbn [client_sessions]. rewrite lookup_insert_eq.
  cbn [client_sessions with_sessions]. rewrite lookup_insert_eq.
  reflexivity.
Qed.

Lemma load_tools_catalog :
  Client.load_tools TOOLS = Client.Done (as_tool <$> TOOLS).
Proof. reflexivity. Qed.

(** X20. Through a connected manager wired to the dispatcher, a tool call
    returns the very text the gateway produced for that tool and those
    arguments, and leaves the server as the [tools/call] request of the
    manager does. *)
Theorem manager_returns_the_gateway_text (apis : nat -> downstream)
  (clock : nat -> string) (peer : string) (m : Client.manager)
  (tool_name arguments : json) (st : server) (n : nat) :
  Client.client_open m = true ->
  Client.call_tool _ (Client.served apis clock peer) m tool_name arguments
    (st, n)
  = (Client.Done (JStr (call_tool (apis n) tool_name arguments).1),
     (after (handle_mcp_request (apis n) (clock n) peer
               (Client.tool_request tool_name arguments) st), S n)).
Proof.
  intros Hopen. unfold Client.call_tool, Client._send_request.
  rewrite Hopen. unfold Client.served. cbn [fst snd].
  rewrite (handle_tools_call (apis n) (clock n) peer
             (Client.tool_request tool_name arguments)
             [("name", tool_name); ("arguments", arguments)] st
             eq_refl eq_refl).
  cbn [response after]. reflexivity.
Qed.

(** X21. When the request fails on the way, or comes back as an envelope
    without a result (an error envelope), the tool call of the manager
    returns "No response from tool". *)
Theorem manager_reports_no_response (world : Type)
  (post : dict -> world -> option json * world) (m : Client.manager)
  (tool_name arguments : json) (w : world) :
  Client.client_open m = true ->
  (post (Client.tool_request tool_name arguments) w).1 = None \/
  (exists envelope,
      (post (Client.tool_request tool_name arguments) w).1
      = Some (JDict envelope) /\
      dict_get envelope "result" = None) ->
  (Client.call_tool world post m tool_name arguments w).1
  = Client.Done (JStr "No response from tool").
Proof.
  intros Hopen Hanswer. unfold Client.call_tool, Client._send_request.
  rewrite Hopen.
  destruct (post (Client.tool_request tool_name arguments) w)
    as [answer w1]. cbn [fst snd] in *.
  destruct Hanswer as [-> | (envelope & -> & Hnone)]; [reflexivity|].
  unfold Client.has_result_with, py_contains. rewrite Hnone.
  destruct (truthy (JDict envelope)); reflexivity.
Qed.

(** X22. A manager that is not connected sends nothing: a tool call, the
    loading of the tools and the handshake raise "Not connected to MCP
    server" and leave the world as it was. *)
Theorem unconnected_manager_sends_nothing (world : Type)
  (post : dict -> world -> option json * world) (m : Client.manager)
  (tool_name arguments : json) (w : world) :
  Client.client_open m = false ->
  Client.call_tool world post m tool_name arguments w
  = (Client.Fail (Client.RuntimeError "Not connected to MCP server"), w) /\
  Client._get_tools world post m w
  = (Client.Fail (Client.RuntimeError "Not connected to MCP server"), w) /\
  Client._initialize_server world post m w
  = (Client.Fail (Client.RuntimeError "Not connected to MCP server"), w).
Proof.
  intros Hclosed.
  unfold Client.call_tool, Client._get_tools, Client._initialize_server,
    Client._send_request.
  rewrite Hclosed. repeat split.
Qed.

(** X23. Connecting fails at the health check only when the server cannot
    be reached: then nothing is posted and the error names the address.
    Any status the probe returns, 200 or not, and any other failure of
    the probe lead to the same connection. *)
Theorem health_check_fails_only_when_unreachable (world : Type)
  (post : dict -> world -> option json * world)
  (probe probe' : world -> Client.health * world) (m : Client.manager)
  (w : world) :
  ((probe w).1 = Client.ConnectError ->
   Client.connect_to_server world post probe m w
   = (Client.Fail
        (Client.Exception
           "Cannot connect to MCP server at localhost:3000. Make sure it's running."),
      {| Client.client_open := true; Client.tools := Client.tools m |},
      (probe w).2)) /\
  ((probe w).1 <> Client.ConnectError ->
   (probe' w).1 <> Client.ConnectError ->
   (probe' w).2 = (probe w).2 ->
   Client.connect_to_server world post probe' m w
   = Client.connect_to_server world post probe m w).
Proof.
  unfold Client.connect_to_server, Client._check_server_health.
  destruct (probe w) as [h w1], (probe' w) as [h' w1'].
  cbn [fst snd]. split.
  - intros ->. reflexivity.
  - intros Hh Hh' ->.
    destruct h; try contradiction; destruct h'; try contradiction;
      reflexivity.
Qed.

(** X24. Connecting a manager to the dispatcher, from a peer that has no
    session yet, succeeds: the manager holds the five tools of the
    catalog, in order and with their descriptions and schemas, and the
    peer has a session opened at the time of the handshake that counts
    two requests, the [initialize] and the [tools/list], the notification
    between them not being counted. *)
Theorem connecting_loads_the_catalog (apis : nat -> downstream)
  (clock : nat -> string) (peer : string) (m : Client.manager)
  (st : server) (n : nat) :
  consistent st ->
  client_sessions st !! peer = None ->
  exists st',
    Client.connect_to_server _ (Client.served apis clock peer)
      Client.healthy m (st, n)
    = (Client.Done tt,
       {| Client.client_open := true; Client.tools := as_tool <$> TOOLS |},
       (st', (3 + n)%nat)) /\
    Client.name <$> (as_tool <$> TOOLS) = JStr <$> REGISTERED /\
    client_sessions st' !! peer
    = Some {| connected_at := clock n; requests_count := 2;
              tools_called := [] |}.
Proof.
  intros Hc Hnone.
  pose proof (fresh_initialize_session (apis n) (clock n) peer
                Client.init_request st Hc Hnone eq_refl) as Hs1.
  unfold Client.connect_to_server, Client._check_server_health,
    Client.healthy, Client._initialize_server, Client._get_tools,
    Client._send_notification, Client._send_request, Client.served.
  cbn [Client.client_open fst snd].
  revert Hs1.
  generalize (after (handle_mcp_request (apis n) (clock n) peer
                       Client.init_request st)).
  intros st1 Hs1.
  rewrite (handle_notification (apis (S n)) (clock (S n)) peer
             Client.initialized_notification st1 eq_refl).
  cbn [after].
  rewrite (handle_tools_list (apis (S (S n))) (clock (S (S n))) peer
             Client.tools_request st1 eq_refl).
  rewrite Hs1. cbn [after response].
  eexists. split; [reflexivity|]. split; [reflexivity|].
  cbn [client_sessions with_sessions]. apply lookup_insert_eq.
Qed.

End ManagerProperties.

(** ** The chat loop *)

Section ChatProperties.
Context {rt : PyRuntime} {pc : PyContainers}.

(** X25. A chat turn only adds to the conversation: the user message
    first, then either nothing, when the turn fails with "Error
    processing your request: ...", or the answer as the last assistant
    message, with the tool message before it when tools were used. The
    manager is left as it was. *)
Theorem chat_only_adds_to_the_conversation (world : Type)
  (post : dict -> world -> option json * world)
  (chat_completion :
     list Client.Message -> option (list Client.Tool) -> world
     -> json * world)
  (json_loads : json -> string + json)
  (bot : Client.chatbot) (user_input : string) (w : world) :
  let turn :=
    Client.chat world post chat_completion json_loads bot user_input w in
  let answer := fst (fst turn) in
  let bot' := snd (fst turn) in
  Client.mcp_manager bot' = Client.mcp_manager bot /\
  exists added,
    Client.conversation_history bot'
    = Client.conversation_history bot
      ++ {| Client.role := "user"; Client.content := user_input |} :: added /\
    ((added = [] /\ exists e, answer = Client.error_msg e) \/
     (exists before,
         added = before ++ [{| Client.role := "assistant";
                               Client.content := answer |}] /\
         (length before <= 1)%nat)).
Proof.
  cbv zeta. unfold Client.chat.
  destruct (chat_completion _ _ w) as [response w1].
  assert (Hplain :
    forall h : list Client.Message,
      exists added,
        h ++ [{| Client.role := "user"; Client.content := user_input |}]
          ++ [{| Client.role := "assistant";
                 Client.content := py_str response |}]
        = h ++ {| Client.role := "user"; Client.content := user_input |}
               :: added /\
        ((added = [] /\ exists e, py_str response = Client.error_msg e) \/
         (exists before,
             added = before ++ [{| Client.role := "assistant";
                                   Client.content := py_str response |}] /\
             (length before <= 1)%nat))).
  { intros h. eexists. split; [reflexivity|]. right. exists [].
    split; [reflexivity | cbn; lia]. }
  destruct response as [| | | | | |d];
    try (cbn [fst snd Client.mcp_manager Client.conversation_history];
         split; [reflexivity|]; rewrite <- app_assoc; apply Hplain).
  destruct (dict_get d "tool_calls") as [tool_calls|];
    [|cbn [fst snd Client.mcp_manager Client.conversation_history];
      split; [reflexivity|]; rewrite <- app_assoc; apply Hplain].
  destruct (py_iter tool_calls) as [walk|e].
  - destruct (Client.call_tools world post json_loads _ walk w1)
      as [[e|tool_results] w2].
    + cbn [fst snd Client.mcp_manager Client.conversation_history].
      split; [reflexivity|]. exists []. split; [reflexivity|].
      left. split; [reflexivity|]. eauto.
    + destruct (chat_completion _ None w2) as [final_response w3].
      cbn [fst snd Client.mcp_manager Client.conversation_history].
      split; [reflexivity|]. eexists. rewrite <- !app_assoc.
      split; [reflexivity|]. right. eexists [_].
      split; [reflexivity | cbn; lia].
  - cbn [fst snd Client.mcp_manager Client.conversation_history].
    split; [reflexivity|]. exists []. split; [reflexivity|].
    left. split; [reflexivity|]. eauto.
Qed.

Section WiredChatProperties.
Variable apis : nat -> downstream.
Variable clock : nat -> string.
Variable peer : string.
Variable service : Type.
Variable llm :
  list Client.Message -> option (list Client.Tool) -> service
  -> json * service.
Variable json_loads : json -> string + json.

Lemma wired_call_tool (m : Client.manager) (tool_name arguments : json)
  (st : server) (n : nat) (l : service) :
  Client.client_open m = true ->
  Client.call_tool _ (Client.wired_post apis clock peer service) m
    tool_name arguments (st, n, l)
  = (Client.Done (JStr (call_tool (apis n) tool_name arguments).1),
     (after (handle_mcp_request (apis n) (clock n) peer
               (Client.tool_request tool_name arguments) st), S n, l)).
Proof.
  intros Hopen. unfold Client.call_tool, Client._send_request.
  rewrite Hopen. unfold Client.wired_post, Client.served. cbn [fst snd].
  rewrite (handle_tools_call (apis n) (clock n) peer
             (Client.tool_request tool_name arguments)
             [("name", tool_name); ("arguments", arguments)] st
             eq_refl eq_refl).
  cbn [response after]. reflexivity.
Qed.

Lemma wired_call_tools (m : Client.manager) (proposals : list json)
  (proposed : list (json * json)) (st : server) (n : nat) (l : service) :
  Client.client_open m = true ->
  Forall2 (fun p c => Client.read_tool_call json_loads p = inr c)
    proposals proposed ->
  Client.call_tools _ (Client.wired_post apis clock peer service)
    json_loads m proposals (st, n, l)
  = (inr (Client.tool_lines apis n proposed),
     (run st (Client.tool_events apis clock peer n proposed),
      (length proposed + n)%nat, l)).
Proof.
  intros Hopen Hall. revert st n.
  induction Hall as [|p [tool_name arguments] proposals proposed Hp _ IH];
    intros st n; [reflexivity|].
  cbn [Client.call_tools Client.tool_lines Client.tool_events length].
  rewrite Hp, (wired_call_tool m tool_name arguments st n l Hopen), IH.
  cbn [py_str run fold_left]. unfold step, handle.
  cbn [ev_api ev_now ev_client ev_request].
  replace (length proposed + S n)%nat with (S (length proposed + n))%nat
    by lia.
  reflexivity.
Qed.

Lemma tool_events_of_peer (n : nat) (proposed : list (json * json)) :
  List.filter (by_peer peer) (Client.tool_events apis clock peer n proposed)
  = Client.tool_events apis clock peer n proposed.
Proof.
  revert n. induction proposed as [|[tool_name arguments] proposed IH];
    intros n; [reflexivity|].
  cbn [Client.tool_events List.filter]. unfold by_peer at 1.
  cbn [ev_client]. rewrite String.eqb_refl, IH. reflexivity.
Qed.

Lemma tool_events_counted (n : nat) (proposed : list (json * json)) :
  List.filter counted (Client.tool_events apis clock peer n proposed)
  = Client.tool_events apis clock peer n proposed.
Proof.
  revert n. induction proposed as [|[tool_name arguments] proposed IH];
    intros n; [reflexivity|].
  cbn [Client.tool_events List.filter]. rewrite IH. reflexivity.
Qed.

Lemma tool_events_recorded (n : nat) (proposed : list (json * json)) :
  omap recorded (Client.tool_events apis clock peer n proposed)
  = Client.tool_records clock n proposed.
Proof.
  revert n. induction proposed as [|[tool_name arguments] proposed IH];
    intros n; [reflexivity|].
  cbn [Client.tool_events Client.tool_records]. rewrite <- IH. reflexivity.
Qed.

Lemma tool_events_length (n : nat) (proposed : list (json * json)) :
  length (Client.tool_events apis clock peer n proposed) = length proposed.
Proof.
  revert n. induction proposed as [|[tool_name arguments] proposed IH];
    intros n; [reflexivity|].
  cbn [Client.tool_events length]. rewrite IH. reflexivity.
Qed.

(** The whole turn, when the model proposes well-formed tool calls. *)
Lemma wired_chat_turn (bot : Client.chatbot) (user_input : string)
  (d : dict) (proposals : list json) (proposed : list (json * json))
  (st : server) (n : nat) (l : service) :
  let m := Client.mcp_manager bot in
  let asked :=
    Client.conversation_history bot
    ++ [{| Client.role := "user"; Client.content := user_input |}] in
  Client.client_open m = true ->
  (llm asked (Some (Client.tools m)) l).1 = JDict d ->
  dict_get d "tool_calls" = Some (JList proposals) ->
  Forall2 (fun p c => Client.read_tool_call json_loads p = inr c)
    proposals proposed ->
  exists final_response l2,
    Client.chat _ (Client.wired_post apis clock peer service)
      (Client.wired_completion service llm) json_loads bot user_input
      (st, n, l)
    = (py_str final_response,
       {| Client.mcp_manager := m;
          Client.conversation_history :=
            asked
            ++ [{| Client.role := "assistant";
                   Client.content :=
                     "I used some tools to help you. "
                     +:+ Client.join " "
                           (Client.tool_lines apis n proposed) |};
                {| Client.role := "assistant";
                   Client.content := py_str final_response |}] |},
       (run st (Client.tool_events apis clock peer n proposed),
        (length proposed + n)%nat, l2)).
Proof.
  intros m asked Hopen Hllm Htools Hall.
  unfold Client.chat. fold m. fold asked.
  unfold Client.wired_completion. cbn [fst snd].
  destruct (llm asked (Some (Client.tools m)) l) as [response l1].
  cbn [fst] in Hllm. subst response. rewrite Htools. cbn [py_iter].
  rewrite (wired_call_tools m proposals proposed st n l1 Hopen Hall).
  cbn [fst snd].
  destruct (llm _ None l1) as [final_response l2].
  exists final_response, l2. rewrite <- app_assoc. reflexivity.
Qed.

(** X26. When the model proposes tool calls, the chat turn sends one
    [tools/call] request per proposal to the dispatcher, in the order of
    the proposals, and nothing else; it records one assistant message
    that lists, in that order, the text the gateway gave for each, and
    then the final answer of the model. *)
Theorem chat_calls_every_proposed_tool (bot : Client.chatbot)
  (user_input : string) (d : dict) (proposals : list json)
  (proposed : list (json * json)) (st : server) (n : nat) (l : service) :
  let m := Client.mcp_manager bot in
  let asked :=
    Client.conversation_history bot
    ++ [{| Client.role := "user"; Client.content := user_input |}] in
  Client.client_open m = true ->
  (llm asked (Some (Client.tools m)) l).1 = JDict d ->
  dict_get d "tool_calls" = Some (JList proposals) ->
  Forall2 (fun p c => Client.read_tool_call json_loads p = inr c)
    proposals proposed ->
  let turn :=
    Client.chat _ (Client.wired_post apis clock peer service)
      (Client.wired_completion service llm) json_loads bot user_input
      (st, n, l) in
  fst (snd turn)
  = (run st (Client.tool_events apis clock peer n proposed),
     (length proposed + n)%nat) /\
  Client.conversation_history (snd (fst turn))
  = asked
    ++ [{| Client.role := "assistant";
           Client.content :=
             "I used some tools to help you. "
             +:+ Client.join " " (Client.tool_lines apis n proposed) |};
        {| Client.role := "assistant"; Client.content := fst (fst turn) |}].
Proof.
  intros m asked Hopen Hllm Htools Hall turn. subst turn.
  destruct (wired_chat_turn bot user_input d proposals proposed st n l
              Hopen Hllm Htools Hall) as (final_response & l2 & ->).
  split; reflexivity.
Qed.

(** X27. After such a turn the session of the client holds one more
    record per proposal, in the order of the proposals, each with the
    tool, the arguments and the time of its request, and its counter is
    larger by the number of proposals. *)
Theorem chat_leaves_a_record_per_tool (bot : Client.chatbot)
  (user_input : string) (d : dict) (proposals : list json)
  (proposed : list (json * json)) (st : server) (n : nat) (l : service)
  (s : session) :
  let m := Client.mcp_manager bot in
  let asked :=
    Client.conversation_history bot
    ++ [{| Client.role := "user"; Client.content := user_input |}] in
  consistent st ->
  client_sessions st !! peer = Some s ->
  Client.client_open m = true ->
  (llm asked (Some (Client.tools m)) l).1 = JDict d ->
  dict_get d "tool_calls" = Some (JList proposals) ->
  Forall2 (fun p c => Client.read_tool_call json_loads p = inr c)
    proposals proposed ->
  let turn :=
    Client.chat _ (Client.wired_post apis clock peer service)
      (Client.wired_completion service llm) json_loads bot user_input
      (st, n, l) in
  client_sessions (fst (fst (snd turn))) !! peer
  = Some {| connected_at := connected_at s;
            requests_count := requests_count s + Z.of_nat (length proposed);
            tools_called :=
              tools_called s ++ Client.tool_records clock n proposed |}.
Proof.
  intros m asked Hc Hs Hopen Hllm Htools Hall turn. subst turn.
  destruct (wired_chat_turn bot user_input d proposals proposed st n l
              Hopen Hllm Htools Hall) as (final_response & l2 & ->).
  cbn [fst snd].
  rewrite (run_open_session _ st peer s Hc Hs).
  rewrite tool_events_of_peer, tool_events_counted, tool_events_recorded,
    tool_events_length.
  reflexivity.
Qed.

Lemma wired_call_tools_failing (m : Client.manager)
  (good rest : list json) (bad : json) (proposed : list (json * json))
  (e : Client.chat_error) (st : server) (n : nat) (l : service) :
  Client.client_open m = true ->
  Forall2 (fun p c => Client.read_tool_call json_loads p = inr c)
    good proposed ->
  Client.read_tool_call json_loads bad = inl e ->
  Client.call_tools _ (Client.wired_post apis clock peer service)
    json_loads m (good ++ bad :: rest) (st, n, l)
  = (inl e,
     (run st (Client.tool_events apis clock peer n proposed),
      (length proposed + n)%nat, l)).
Proof.
  intros Hopen Hall Hbad. revert st n.
  induction Hall as [|p [tool_name arguments] good proposed Hp _ IH];
    intros st n.
  - cbn [app Client.call_tools]. rewrite Hbad. reflexivity.
  - cbn [app Client.call_tools Client.tool_events length].
    rewrite Hp, (wired_call_tool m tool_name arguments st n l Hopen), IH.
    cbn [run fold_left]. unfold step, handle.
    cbn [ev_api ev_now ev_client ev_request].
    replace (length proposed + S n)%nat with (S (length proposed + n))%nat
      by lia.
    reflexivity.
Qed.

(** X28. When a proposal of the model cannot be read (no function, no
    name, arguments that [json.loads] refuses), the turn stops there: the
    tools proposed before it have been called, in order, the ones after
    it are not, the answer is "Error processing your request: ..." and
    the conversation gets the user message and nothing else. *)
Theorem chat_stops_at_an_unreadable_proposal (bot : Client.chatbot)
  (user_input : string) (d : dict) (good rest : list json) (bad : json)
  (proposed : list (json * json)) (e : Client.chat_error)
  (st : server) (n : nat) (l : service) :
  let m := Client.mcp_manager bot in
  let asked :=
    Client.conversation_history bot
    ++ [{| Client.role := "user"; Client.content := user_input |}] in
  Client.client_open m = true ->
  (llm asked (Some (Client.tools m)) l).1 = JDict d ->
  dict_get d "tool_calls" = Some (JList (good ++ bad :: rest)) ->
  Forall2 (fun p c => Client.read_tool_call json_loads p = inr c)
    good proposed ->
  Client.read_tool_call json_loads bad = inl e ->
  let turn :=
    Client.chat _ (Client.wired_post apis clock peer service)
      (Client.wired_completion service llm) json_loads bot user_input
      (st, n, l) in
  fst (fst turn) = Client.error_msg e /\
  Client.conversation_history (snd (fst turn)) = asked /\
  fst (snd turn)
  = (run st (Client.tool_events apis clock peer n proposed),
     (length proposed + n)%nat).
Proof.
  intros m asked Hopen Hllm Htools Hall Hbad turn. subst turn.
  unfold Client.chat. fold m. fold asked.
  unfold Client.wired_completion. cbn [fst snd].
  destruct (llm asked (Some (Client.tools m)) l) as [response l1].
  cbn [fst] in Hllm. subst response. rewrite Htools. cbn [py_iter].
  rewrite (wired_call_tools_failing m good rest bad proposed e st n l1
             Hopen Hall Hbad).
  repeat split.
Qed.

End WiredChatProperties.

End ChatProperties.

(** ** The further properties at work *)

Lemma session_history_is_append_only_witness :
  exists s',
    client_sessions
      (run (rt := example_runtime) startup
         ([sent unreachable_api init_request]
          ++ [sent unreachable_api tools_request;
              sent unreachable_api add_request])) !! peer_a = Some s' /\
    continues {| connected_at := noon; requests_count := 1;
                 tools_called := [] |} s'.
Proof.
  refine (session_history_is_append_only (rt := example_runtime)
            [sent unreachable_api init_request]
            [sent unreachable_api tools_request;
             sent unreachable_api add_request]
            peer_a _ _).
  vm_compute. reflexivity.
Defined.

Lemma counter_exceeds_history_witness :
  let s := {| connected_at := noon;
              requests_count := 3;
              tools_called :=
                [{| tool_name := JStr "add_number";
                    arguments := JDict [("number", JInt 42)];
                    timestamp := noon |}] |} in
  Z.of_nat (length (tools_called s)) < requests_count s.
Proof.
  refine (counter_exceeds_history (rt := example_runtime)
            [sent unreachable_api init_request;
             sent unreachable_api tools_request;
             sent unreachable_api add_request] peer_a _ _).
  vm_compute. reflexivity.
Defined.

Lemma downstream_calls_only_for_tools_call_witness :
  calls (handle_mcp_request (rt := example_runtime) unreachable_api noon
           peer_a tools_request startup) = [].
Proof.
  refine (proj2 (downstream_calls_only_for_tools_call
                   (rt := example_runtime) unreachable_api noon peer_a
                   tools_request startup) _).
  discriminate.
Defined.

Lemma failing_initialize_opens_the_session_witness :
  let h := handle_mcp_request (rt := example_runtime) unreachable_api noon
             peer_a positional_init_request startup in
  client_sessions (after h) !! peer_a
  = Some {| connected_at := noon; requests_count := 1; tools_called := [] |} /\
  response h
  = internal_error (JInt 10) "'list' object has no attribute 'get'".
Proof.
  destruct (failing_initialize_opens_the_session (rt := example_runtime)
              unreachable_api noon peer_a positional_init_request startup
              consistent_startup (lookup_empty _) eq_refl)
    as (Hsession & _ & Hresponse).
  split; [exact Hsession | exact (Hresponse eq_refl)].
Defined.

Lemma initialize_handshake_witness :
  response (handle_mcp_request (rt := example_runtime) unreachable_api noon
              peer_a init_request startup)
  = JDict [("jsonrpc", JStr "2.0"); ("id", JInt 1); ("result", SERVER_INFO)].
Proof.
  refine (proj1 (initialize_handshake (rt := example_runtime)
                   unreachable_api noon peer_a init_request
                   [("protocolVersion", JStr "2024-11-05");
                    ("capabilities", JDict [("tools", JDict [])]);
                    ("clientInfo", JDict [("name", JStr "test-client");
                                          ("version", JStr "1.0.0")])]
                   [("name", JStr "test-client"); ("version", JStr "1.0.0")]
                   startup consistent_startup eq_refl eq_refl eq_refl)).
Defined.


Lemma reply_that_is_no_object_is_reported_witness :
  (call_tool (rt := example_runtime) (stub_api (JList [])) (JStr "get_joke")
     (JDict [])).1
  = "Error executing get_joke: 'list' object has no attribute 'get'".
Proof.
  refine (reply_that_is_no_object_is_reported (rt := example_runtime)
            (stub_api (JList [])) (JStr "get_joke") (JDict []) (JList [])
            joke_call _ eq_refl eq_refl).
  vm_compute. left.
Defined.

Lemma arguments_that_are_no_mapping_are_reported_witness :
  call_tool (rt := example_runtime) unreachable_api (JStr "add_number") JNull
  = ("Error executing add_number: 'NoneType' object is not subscriptable",
     []).
Proof.
  refine (arguments_that_are_no_mapping_are_reported (rt := example_runtime)
            unreachable_api (JStr "add_number")
            (tool "add_number"
               "Add 1 to a given number using the business server"
               [("number", prop "integer" "The number to add 1 to")]
               ["number"])
            JNull eq_refl _ eq_refl).
  discriminate.
Defined.


Lemma missing_joke_part_is_printed_as_None_witness :
  contains "Setup: None"
    (call_tool (rt := example_runtime)
       (stub_api (JDict [("setup", JNull);
                         ("punchline", JStr "To get to the other side.")]))
       (JStr "get_joke") (JDict [])).1
  = true.
Proof.
  rewrite (missing_joke_part_is_printed_as_None (rt := example_runtime)
             (stub_api (JDict [("setup", JNull);
                               ("punchline",
                                JStr "To get to the other side.")]))
             half_joke _ (JDict []) eq_refl eq_refl).
  reflexivity.
Defined.

Lemma registration_text_carries_the_id_witness :
  (call_tool (rt := example_runtime)
     (stub_api (JDict [("agent_id", JStr example_uuid)]))
     (JStr "register_agent")
     (JDict [("name", JStr "ChatBot"); ("version", JStr "1.0.0")])).1
  = "Agent registered successfully. Agent ID: "
    +:+ example_uuid.
Proof.
  exact (registration_text_carries_the_id (rt := example_runtime)
           (stub_api (JDict [("agent_id", JStr example_uuid)]))
           example_uuid example_agent ∅
           [("name", JStr "ChatBot"); ("version", JStr "1.0.0")]
           eq_refl eq_refl eq_refl).
Defined.

Lemma registered_agent_is_served_witness :
  Business.get_tasks example_uuid
    (Business.register_all [("another-id", example_agent)]
       (Business.register_agent example_uuid example_agent ∅).2)
  = Ok (JDict [("tasks", Business.tasks)]).
Proof.
  exact (proj2 (registered_agent_is_served example_uuid example_agent ∅
                  [("another-id", example_agent)] example_report eq_refl)).
Defined.

Lemma unknown_agent_is_turned_down_witness :
  Business.report_status example_report
    (Business.register_all [("another-id", example_agent)] ∅)
  = Raise (HTTPException 404 "Agent not found").
Proof.
  refine (proj1 (unknown_agent_is_turned_down
                   [("another-id", example_agent)] example_report _)).
  cbn. intros Hin. apply list_elem_of_singleton in Hin. discriminate Hin.
Defined.

Lemma manager_returns_the_gateway_text_witness :
  (Client.call_tool (rt := example_runtime) (pc := example_containers) _
     (Client.served (rt := example_runtime) (fun _ => stub_api (adder 42))
        (fun _ => noon) peer_a)
     connected_manager (JStr "add_number") (JDict [("number", JInt 42)])
     (startup, 0%nat)).1
  = Client.Done (JStr "Result: 42 + 1 = 43").
Proof.
  rewrite (manager_returns_the_gateway_text (rt := example_runtime)
             (pc := example_containers) (fun _ => stub_api (adder 42))
             (fun _ => noon) peer_a connected_manager (JStr "add_number")
             (JDict [("number", JInt 42)]) startup 0 eq_refl).
  reflexivity.
Defined.

Lemma manager_reports_no_response_witness :
  (Client.call_tool (rt := example_runtime) (pc := example_containers) unit
     (fun _ w => (None, w)) connected_manager (JStr "get_joke") (JDict [])
     tt).1
  = Client.Done (JStr "No response from tool").
Proof.
  exact (manager_reports_no_response (rt := example_runtime)
           (pc := example_containers) unit (fun _ w => (None, w))
           connected_manager (JStr "get_joke") (JDict []) tt eq_refl
           (or_introl eq_refl)).
Defined.

Lemma unconnected_manager_sends_nothing_witness :
  Client.call_tool (rt := example_runtime) (pc := example_containers) unit
    (fun _ w => (None, w)) Client.fresh (JStr "get_joke") (JDict []) tt
  = (Client.Fail (Client.RuntimeError "Not connected to MCP server"), tt).
Proof.
  exact (proj1 (unconnected_manager_sends_nothing (rt := example_runtime)
                  (pc := example_containers) unit (fun _ w => (None, w))
                  Client.fresh (JStr "get_joke") (JDict []) tt eq_refl)).
Defined.

Lemma health_check_fails_only_when_unreachable_witness :
  fst (fst (Client.connect_to_server (rt := example_runtime)
              (pc := example_containers) unit (fun _ w => (None, w))
              (fun w => (Client.ConnectError, w)) Client.fresh tt))
  = Client.Fail
      (Client.Exception
         "Cannot connect to MCP server at localhost:3000. Make sure it's running.").
Proof.
  rewrite (proj1 (health_check_fails_only_when_unreachable
                    (rt := example_runtime) (pc := example_containers) unit
                    (fun _ w => (None, w))
                    (fun w => (Client.ConnectError, w))
                    (fun w => (Client.ConnectError, w)) Client.fresh tt)
             eq_refl).
  reflexivity.
Defined.

Lemma connecting_loads_the_catalog_witness :
  exists st',
    Client.connect_to_server (rt := example_runtime)
      (pc := example_containers) _
      (Client.served (rt := example_runtime) (fun _ => unreachable_api)
         (fun _ => noon) peer_a)
      Client.healthy Client.fresh (startup, 0%nat)
    = (Client.Done tt, connected_manager, (st', 3%nat)) /\
    client_sessions st' !! peer_a
    = Some {| connected_at := noon; requests_count := 2;
              tools_called := [] |}.
Proof.
  destruct (connecting_loads_the_catalog (rt := example_runtime)
              (pc := example_containers) (fun _ => unreachable_api)
              (fun _ => noon) peer_a Client.fresh startup 0
              consistent_startup (lookup_empty _))
    as (st' & Hconnect & _ & Hsession).
  exists st'. split; [exact Hconnect | exact Hsession].
Defined.

Lemma chat_calls_every_proposed_tool_witness :
  let turn :=
    Client.chat (rt := example_runtime) (pc := example_containers) _
      (Client.wired_post (rt := example_runtime)
         (fun _ => stub_api joke_body) (fun _ => noon) peer_a unit)
      (Client.wired_completion unit (example_llm [joke_proposal]))
      example_json_loads example_bot "Tell me a joke" (startup, 0%nat, tt) in
  snd (fst (snd turn)) = 1%nat /\
  length (Client.conversation_history (snd (fst turn))) = 4%nat.
Proof.
  destruct (chat_calls_every_proposed_tool (rt := example_runtime)
              (pc := example_containers) (fun _ => stub_api joke_body)
              (fun _ => noon) peer_a unit (example_llm [joke_proposal])
              example_json_loads example_bot "Tell me a joke"
              [("role", JStr "assistant"); ("content", JNull);
               ("tool_calls", JList [joke_proposal])]
              [joke_proposal] [(JStr "get_joke", JDict [])]
              startup 0 tt eq_refl eq_refl eq_refl)
    as [Hworld Hhistory].
  - repeat constructor.
  - cbv zeta. rewrite Hworld, Hhistory. split; reflexivity.
Defined.

Lemma chat_leaves_a_record_per_tool_witness :
  let st := run (rt := example_runtime) startup
              [sent unreachable_api init_request] in
  let turn :=
    Client.chat (rt := example_runtime) (pc := example_containers) _
      (Client.wired_post (rt := example_runtime)
         (fun _ => stub_api joke_body) (fun _ => noon) peer_a unit)
      (Client.wired_completion unit (example_llm [joke_proposal]))
      example_json_loads example_bot "Tell me a joke" (st, 1%nat, tt) in
  client_sessions (fst (fst (snd turn))) !! peer_a
  = Some {| connected_at := noon;
            requests_count := 2;
            tools_called :=
              [{| tool_name := JStr "get_joke"; arguments := JDict [];
                  timestamp := noon |}] |}.
Proof.
  refine (chat_leaves_a_record_per_tool (rt := example_runtime)
            (pc := example_containers) (fun _ => stub_api joke_body)
            (fun _ => noon) peer_a unit (example_llm [joke_proposal])
            example_json_loads example_bot "Tell me a joke"
            [("role", JStr "assistant"); ("content", JNull);
             ("tool_calls", JList [joke_proposal])]
            [joke_proposal] [(JStr "get_joke", JDict [])]
            (run (rt := example_runtime) startup
               [sent unreachable_api init_request])
            1 tt
            {| connected_at := noon; requests_count := 1;
               tools_called := [] |}
            _ _ eq_refl eq_refl eq_refl _).
  - apply consistent_run, consistent_startup.
  - vm_compute. reflexivity.
  - repeat constructor.
Defined.

Lemma chat_stops_at_an_unreadable_proposal_witness :
  let turn :=
    Client.chat (rt := example_runtime) (pc := example_containers) _
      (Client.wired_post (rt := example_runtime)
         (fun _ => stub_api joke_body) (fun _ => noon) peer_a unit)
      (Client.wired_completion unit
         (example_llm [joke_proposal; empty_proposal; joke_proposal]))
      example_json_loads example_bot "Tell me a joke" (startup, 0%nat, tt) in
  fst (fst turn) = "Error processing your request: 'function'" /\
  snd (fst (snd turn)) = 1%nat.
Proof.
  destruct (chat_stops_at_an_unreadable_proposal (rt := example_runtime)
              (pc := example_containers) (fun _ => stub_api joke_body)
              (fun _ => noon) peer_a unit
              (example_llm [joke_proposal; empty_proposal; joke_proposal])
              example_json_loads example_bot "Tell me a joke"
              [("role", JStr "assistant"); ("content", JNull);
               ("tool_calls",
                JList [joke_proposal; empty_proposal; joke_proposal])]
              [joke_proposal] [joke_proposal] empty_proposal
              [(JStr "get_joke", JDict [])]
              (Client.Manager (Client.Python (KeyError (JStr "function"))))
              startup 0 tt eq_refl eq_refl eq_refl)
    as (Hanswer & _ & Hworld).
  - repeat constructor.
  - reflexivity.
  - cbv zeta. rewrite Hanswer, Hworld. split; reflexivity.
Defined.
